(** * The image editor component (App.tsx): model and verification

    The component keeps five pieces of React state and has three handlers,
    two of which are [async].  Handlers are embedded as terms of a small
    resumption monad [Task]: synchronous effects (state setters, the event
    and console calls, the file-input ref), [await] on one of the two
    imported service functions, and JavaScript completions (normal return
    or a thrown value) with [try]/[catch]/[finally].  A task can be run
    uninterrupted against an environment that settles the awaited promises
    ([exec]) or up to its first [await] ([run]); the latter drives an event
    loop ([step]) in which other events interleave with pending promises. *)

From Stdlib Require Import String List Bool Arith Lia.
From ExtLib Require Import Structures.Monad.
Import ListNotations.
Import MonadNotation.
Local Open Scope string_scope.
Local Open Scope monad_scope.

(** ** Data *)

(** A browser [File]: only the properties the component reads. *)
Record File : Type := mkFile {
  name : string;
  type : string
}.

(** [React.ChangeEvent<HTMLInputElement>]: [event.target.files] is a
    [FileList] or [null]. *)
Record ChangeEvent : Type := mkChangeEvent {
  files : option (list File)
}.

(** A thrown JavaScript value: an instance of [Error] carrying its
    [message], or any other value. *)
Inductive JsThrown : Type :=
| JsError (message : string)
| JsNonError (shown : string).

(** The imported module ./services/geminiService.  Its two functions are
    external to the component: they are calls whose promise is settled by
    the environment. *)
Module GeminiService.

(** Result of [fileToBase64]: [{ base64Data, mimeType }]. *)
Record Base64File : Type := mkBase64File {
  base64Data : string;
  mimeType : string
}.

Inductive Call : Type -> Type :=
| editImageWithGemini (base64 mime text : string) : Call string
| fileToBase64 (file : File) : Call Base64File.

End GeminiService.
Import GeminiService.

(** [interface ImageState { data: string; mimeType: string }] *)
Record ImageState : Type := mkImageState {
  data : string;
  mimeType : string
}.

(** The five [useState] cells of [App], with their initial values. *)
Record AppState : Type := mkAppState {
  originalImage : option ImageState;
  editedImage : option string;
  prompt : string;
  isLoading : bool;
  error : option string
}.

Definition initialState : AppState :=
  mkAppState None None "" false None.

Inductive AnyCall : Type :=
| SomeCall {R : Type} (c : GeminiService.Call R).

Definition is_edit_call (c : AnyCall) : bool :=
  match c with
  | SomeCall (editImageWithGemini _ _ _) => true
  | SomeCall (fileToBase64 _) => false
  end.

(** The single [<input type="file" id="image-upload">] element. *)
Inductive HTMLInputElement : Type := ImageUploadInput.

(** ** Effects and tasks *)

Inductive Effect : Type -> Type :=
| SetOriginalImage (v : option ImageState) : Effect unit
| SetEditedImage (v : option string) : Effect unit
| SetPrompt (v : string) : Effect unit
| SetIsLoading (v : bool) : Effect unit
| SetError (v : option string) : Effect unit
| PreventDefault : Effect unit
| ConsoleError (v : JsThrown) : Effect unit
| FileInputRefCurrent : Effect (option HTMLInputElement)
| SetInputValue (el : HTMLInputElement) (v : string) : Effect unit.

Inductive Completion (A : Type) : Type :=
| Returned (a : A)
| Threw (v : JsThrown).
Arguments Returned {A} a.
Arguments Threw {A} v.

Inductive Settled (R : Type) : Type :=
| Fulfilled (r : R)
| Rejected (v : JsThrown).
Arguments Fulfilled {R} r.
Arguments Rejected {R} v.

Inductive Task (A : Type) : Type :=
| Done (c : Completion A)
| Act {R : Type} (e : Effect R) (k : R -> Task A)
| Await {R : Type} (c : GeminiService.Call R) (k : Settled R -> Task A).
Arguments Done {A} c.
Arguments Act {A R} e k.
Arguments Await {A R} c k.

Fixpoint Task_bind {A B : Type} (t : Task A) (f : A -> Task B) : Task B :=
  match t with
  | Done (Returned a) => f a
  | Done (Threw v) => Done (Threw v)
  | Act e k => Act e (fun r => Task_bind (k r) f)
  | Await c k => Await c (fun s => Task_bind (k s) f)
  end.

#[global] Instance Monad_Task : Monad Task :=
  {| ret := fun _ a => Done (Returned a);
     bind := fun _ _ t f => Task_bind t f |}.

Definition act {R : Type} (e : Effect R) : Task R :=
  Act e (fun r => Done (Returned r)).

(** [await f(...)]: a rejected promise throws at the [await]. *)
Definition await {R : Type} (c : GeminiService.Call R) : Task R :=
  Await c (fun s =>
    match s with
    | Fulfilled r => Done (Returned r)
    | Rejected v => Done (Threw v)
    end).

(** [try { body } catch (err) { handler err }] *)
Fixpoint try_catch {A : Type} (body : Task A) (handler : JsThrown -> Task A)
  : Task A :=
  match body with
  | Done (Returned a) => Done (Returned a)
  | Done (Threw v) => handler v
  | Act e k => Act e (fun r => try_catch (k r) handler)
  | Await c k => Await c (fun s => try_catch (k s) handler)
  end.

(** [try { body } finally { fin }]: [fin] runs on every completion of
    [body]; the completion of [body] stands unless [fin] itself throws. *)
Fixpoint try_finally {A : Type} (body : Task A) (fin : Task unit) : Task A :=
  match body with
  | Done c => Task_bind fin (fun _ => Done c)
  | Act e k => Act e (fun r => try_finally (k r) fin)
  | Await c k => Await c (fun s => try_finally (k s) fin)
  end.

(** ** JavaScript helpers *)

(** Truthiness of a string: only the empty string is falsy. *)
Definition truthy (s : string) : bool :=
  match s with
  | EmptyString => false
  | String _ _ => true
  end.

(** [s.startsWith(p)] *)
Definition startsWith (s p : string) : bool := String.prefix p s.

(** [event.target.files?.[0]] *)
Definition first_file (event : ChangeEvent) : option File :=
  match files event with
  | Some (f :: _) => Some f
  | Some [] => None
  | None => None
  end.

Definition is_some {A : Type} (o : option A) : bool :=
  match o with Some _ => true | None => false end.

(** ** The handlers *)

Definition msg_invalid_file : string :=
  "Please upload a valid image file (PNG, JPG, WEBP, etc.).".
Definition msg_read_failed : string := "Failed to process image file.".
Definition msg_missing_input : string := "Please provide an image and a prompt.".
Definition msg_unknown : string := "An unknown error occurred.".

(** [handleImageUpload] (a [useCallback] with no dependencies: it reads
    nothing from the rendered state). *)
Definition handleImageUpload (event : ChangeEvent) : Task unit :=
  match first_file event with
  | Some file =>
      if negb (startsWith (type file) "image/") then
        act (SetError (Some msg_invalid_file))
      else
        act (SetError None) ;;
        act (SetEditedImage None) ;;
        try_catch
          (r <- await (fileToBase64 file) ;;
           act (SetOriginalImage
                  (Some (mkImageState (base64Data r) (GeminiService.mimeType r)))))
          (fun err =>
             act (SetError (Some msg_read_failed)) ;;
             act (ConsoleError err))
  | None => ret tt
  end.

(** [handleSubmit]: recreated at every render, so [prompt] and
    [originalImage] are the values of the render in which the event was
    dispatched ([rendered]); the setters act on the live state.  Past the
    guard [originalImage] is an object; the [None] branch of the inner
    match is there for totality only and is never taken. *)
Definition handleSubmit (rendered : AppState) : Task unit :=
  act PreventDefault ;;
  if negb (truthy (prompt rendered)) || negb (is_some (originalImage rendered))
  then
    act (SetError (Some msg_missing_input))
  else
    match originalImage rendered with
    | None => ret tt
    | Some img =>
        act (SetError None) ;;
        act (SetIsLoading true) ;;
        act (SetEditedImage None) ;;
        try_finally
          (try_catch
             (newImageBase64 <-
                await (editImageWithGemini (data img) (mimeType img)
                                           (prompt rendered)) ;;
              act (SetEditedImage
                     (Some ("data:image/png;base64," ++ newImageBase64))))
             (fun err =>
                act (SetError
                       (Some match err with
                             | JsError m => m
                             | JsNonError _ => msg_unknown
                             end))))
          (act (SetIsLoading false))
    end.

(** [handleReset] *)
Definition handleReset : Task unit :=
  act (SetOriginalImage None) ;;
  act (SetEditedImage None) ;;
  act (SetPrompt "") ;;
  act (SetError None) ;;
  act (SetIsLoading false) ;;
  cur <- act FileInputRefCurrent ;;
  match cur with
  | Some el => act (SetInputValue el "")
  | None => ret tt
  end.

(** The prompt input's [onChange]: [(e) => setPrompt(e.target.value)]. *)
Definition handlePromptChange (value : string) : Task unit :=
  act (SetPrompt value).

(** ** Semantics of effects *)

(** What the component does to the outside, in order. *)
Inductive Obs : Type :=
| ObsPreventDefault
| ObsConsoleError (v : JsThrown)
| ObsCall (c : AnyCall)
| ObsUnhandledRejection (v : JsThrown).

(** The live React state, the file input behind [fileInputRef] (its
    [value] when the element is mounted, [None] when [fileInputRef.current]
    is [null]) and the observations made so far. *)
Record World : Type := mkWorld {
  ui : AppState;
  fileInput : option string;
  trace : list Obs
}.

Definition with_ui (f : AppState -> AppState) (w : World) : World :=
  mkWorld (f (ui w)) (fileInput w) (trace w).

Definition observe (o : Obs) (w : World) : World :=
  mkWorld (ui w) (fileInput w) (trace w ++ [o]).

Definition setOriginalImage (v : option ImageState) (s : AppState) : AppState :=
  mkAppState v (editedImage s) (prompt s) (isLoading s) (error s).
Definition setEditedImage (v : option string) (s : AppState) : AppState :=
  mkAppState (originalImage s) v (prompt s) (isLoading s) (error s).
Definition setPrompt (v : string) (s : AppState) : AppState :=
  mkAppState (originalImage s) (editedImage s) v (isLoading s) (error s).
Definition setIsLoading (v : bool) (s : AppState) : AppState :=
  mkAppState (originalImage s) (editedImage s) (prompt s) v (error s).
Definition setError (v : option string) (s : AppState) : AppState :=
  mkAppState (originalImage s) (editedImage s) (prompt s) (isLoading s) v.

Definition perform {R : Type} (e : Effect R) (w : World) : World * R :=
  match e in Effect R return World * R with
  | SetOriginalImage v => (with_ui (setOriginalImage v) w, tt)
  | SetEditedImage v => (with_ui (setEditedImage v) w, tt)
  | SetPrompt v => (with_ui (setPrompt v) w, tt)
  | SetIsLoading v => (with_ui (setIsLoading v) w, tt)
  | SetError v => (with_ui (setError v) w, tt)
  | PreventDefault => (observe ObsPreventDefault w, tt)
  | ConsoleError v => (observe (ObsConsoleError v) w, tt)
  | FileInputRefCurrent =>
      (w, match fileInput w with
          | Some _ => Some ImageUploadInput
          | None => None
          end)
  | SetInputValue ImageUploadInput v =>
      (mkWorld (ui w)
               (match fileInput w with Some _ => Some v | None => None end)
               (trace w), tt)
  end.

(** How the environment settles each call. *)
Definition Env : Type := forall R : Type, GeminiService.Call R -> Settled R.

(** A handler run from start to end with nothing in between: every
    awaited call is issued, recorded and settled by [env]. *)
Fixpoint exec {A : Type} (env : Env) (t : Task A) (w : World)
  : World * Completion A :=
  match t with
  | Done c => (w, c)
  | Act e k => let (w', r) := perform e w in exec env (k r) w'
  | Await c k => exec env (k (env _ c)) (observe (ObsCall (SomeCall c)) w)
  end.

(** A handler run up to its first [await]. *)
Inductive Status (A : Type) : Type :=
| Finished (c : Completion A)
| Suspended {R : Type} (c : GeminiService.Call R) (k : Settled R -> Task A).
Arguments Finished {A} c.
Arguments Suspended {A R} c k.

Fixpoint run {A : Type} (t : Task A) (w : World) : World * Status A :=
  match t with
  | Done c => (w, Finished c)
  | Act e k => let (w', r) := perform e w in run (k r) w'
  | Await c k => (observe (ObsCall (SomeCall c)) w, Suspended c k)
  end.

(** ** Rendering *)

Inductive Pane : Type :=
| Spinner
| Image (src : string)
| Placeholder
| Blank.

(** The [ImageDisplay] sub-component. *)
Definition ImageDisplay (imageUrl : option string) (loading isOriginal : bool)
  : Pane :=
  if loading then Spinner
  else match imageUrl with
       | Some url =>
           if truthy url then Image url
           else if negb isOriginal then Placeholder else Blank
       | None => if negb isOriginal then Placeholder else Blank
       end.

(** The footer form: prompt input, Generate and Reset buttons. *)
Record Form : Type := mkForm {
  promptValue : string;
  promptDisabled : bool;
  generateDisabled : bool;
  resetDisabled : bool
}.

Record View : Type := mkView {
  uploadInput : bool;
  shownError : option string;
  originalPane : option Pane;
  editedPane : option Pane;
  form : option Form
}.

(** [{error && ...}]: [null] and the empty string render nothing. *)
Definition error_shown (e : option string) : option string :=
  match e with
  | Some m => if truthy m then Some m else None
  | None => None
  end.

(** The JSX returned by [App]. *)
Definition render (s : AppState) : View :=
  match originalImage s with
  | None => mkView true (error_shown (error s)) None None None
  | Some img =>
      mkView false (error_shown (error s))
        (Some (ImageDisplay
                 (Some ("data:" ++ mimeType img ++ ";base64," ++ data img))
                 false true))
        (Some (ImageDisplay (editedImage s) (isLoading s) false))
        (Some (mkForm (prompt s)
                      (isLoading s)
                      (isLoading s || negb (truthy (prompt s)))
                      (isLoading s)))
  end.

(** ** The event loop *)

(** A promise the component is waiting for, with the rest of its handler. *)
Inductive Pending : Type :=
| Pend {R : Type} (c : GeminiService.Call R) (k : Settled R -> Task unit).

Record Sys : Type := mkSys {
  world : World;
  pending : list Pending
}.

(** After a handler segment React renders again: the file input exists
    exactly when the upload screen is shown, and a newly mounted input has
    an empty value. *)
Definition commit (w : World) : World :=
  mkWorld (ui w)
          (if uploadInput (render (ui w))
           then Some (match fileInput w with Some v => v | None => "" end)
           else None)
          (trace w).

Definition dispatch (t : Task unit) (w : World) (rest : list Pending) : Sys :=
  match run t w with
  | (w', Finished (Returned _)) => mkSys (commit w') rest
  | (w', Finished (Threw v)) =>
      mkSys (commit (observe (ObsUnhandledRejection v) w')) rest
  | (w', Suspended c k) => mkSys (commit w') (rest ++ [Pend c k])
  end.

Fixpoint take_nth {A : Type} (i : nat) (l : list A) : option (A * list A) :=
  match l, i with
  | [], _ => None
  | x :: l', O => Some (x, l')
  | x :: l', S i' =>
      match take_nth i' l' with
      | Some (y, r) => Some (y, x :: r)
      | None => None
      end
  end.

Inductive Event : Type :=
| UploadChange (event : ChangeEvent)
| PromptChange (value : string)
| SubmitForm
| ClickReset
| Settle (i : nat) (env : Env).

(** The value a browser gives a file input after a selection. *)
Definition input_value_of (event : ChangeEvent) : string :=
  match first_file event with
  | Some f => "C:\fakepath\" ++ name f
  | None => ""
  end.

(** One turn of the event loop.  A user event is possible only on a
    control that is rendered and enabled; the form is submitted by the
    Generate button or by Enter in the prompt input.  [None]: the event
    cannot happen in this state. *)
Definition step (ev : Event) (s : Sys) : option Sys :=
  let w := world s in
  let v := render (ui w) in
  match ev with
  | UploadChange event =>
      if uploadInput v then
        Some (dispatch (handleImageUpload event)
                (mkWorld (ui w) (Some (input_value_of event)) (trace w))
                (pending s))
      else None
  | PromptChange value =>
      match form v with
      | Some f =>
          if promptDisabled f then None
          else Some (dispatch (handlePromptChange value) w (pending s))
      | None => None
      end
  | SubmitForm =>
      match form v with
      | Some f =>
          if generateDisabled f && promptDisabled f then None
          else Some (dispatch (handleSubmit (ui w)) w (pending s))
      | None => None
      end
  | ClickReset =>
      match form v with
      | Some f =>
          if resetDisabled f then None
          else Some (dispatch handleReset w (pending s))
      | None => None
      end
  | Settle i env =>
      match take_nth i (pending s) with
      | Some (Pend c k, rest) => Some (dispatch (k (env _ c)) w rest)
      | None => None
      end
  end.

Definition initialSys : Sys :=
  mkSys (mkWorld initialState (Some "") []) [].

Fixpoint steps (evs : list Event) (s : Sys) : option Sys :=
  match evs with
  | [] => Some s
  | ev :: evs' =>
      match step ev s with
      | Some s' => steps evs' s'
      | None => None
      end
  end.

Definition reachable (s : Sys) : Prop :=
  exists evs, steps evs initialSys = Some s.

(** Remote edit requests that have been sent and not yet settled. *)
Definition is_edit_pending (p : Pending) : bool :=
  match p with
  | Pend (editImageWithGemini _ _ _) _ => true
  | Pend (fileToBase64 _) _ => false
  end.

Definition in_flight (s : Sys) : nat :=
  length (filter is_edit_pending (pending s)).

(** Rejections that no handler caught. *)
Definition unhandled (t : list Obs) : nat :=
  length (filter (fun o => match o with
                           | ObsUnhandledRejection _ => true
                           | _ => false
                           end) t).

(** A pending promise settles well when, however it is settled and
    whatever the state is by then, the rest of its handler returns
    normally without awaiting again and without an uncaught rejection;
    the rest of a submit clears the loading flag, the rest of an upload
    leaves it alone. *)
Definition settles_well (p : Pending) : Prop :=
  match p with
  | Pend c k =>
      forall o w, exists w',
        run (k o) w = (w', Finished (Returned tt)) /\
        unhandled (trace w') = unhandled (trace w) /\
        isLoading (ui w') =
          if is_edit_pending p then false else isLoading (ui w)
  end.

(** The invariant of the event loop: the loading flag is set exactly when
    one edit request is in flight, and never more than one is. *)
Definition Inv (s : Sys) : Prop :=
  Forall settles_well (pending s) /\
  in_flight s = (if isLoading (ui (world s)) then 1 else 0) /\
  unhandled (trace (world s)) = 0.

(** Edit requests sent so far, read off the trace. *)
Definition edit_calls (t : list Obs) : nat :=
  length (filter (fun o => match o with
                           | ObsCall c => is_edit_call c
                           | _ => false
                           end) t).

(** ** Sample inputs *)

Definition photo : File := mkFile "cat.png" "image/png".
Definition notes : File := mkFile "notes.txt" "text/plain".

Definition env_ok : Env :=
  fun R c =>
    match c in GeminiService.Call R return Settled R with
    | editImageWithGemini _ _ _ => Fulfilled "iVBORw0KGgo="
    | fileToBase64 f => Fulfilled (mkBase64File "aGVsbG8=" (type f))
    end.

Definition env_reject (v : JsThrown) : Env :=
  fun R c =>
    match c in GeminiService.Call R return Settled R with
    | editImageWithGemini _ _ _ => Rejected v
    | fileToBase64 _ => Rejected v
    end.

Definition loaded : AppState :=
  mkAppState (Some (mkImageState "aGVsbG8=" "image/png"))
             (Some "data:image/png;base64,b2xk") "add a hat" false
             (Some "stale").

Definition sampleWorld (s : AppState) : World :=
  mkWorld s (if is_some (originalImage s) then None else Some "") [].

(** The editor after an upload, a prompt and a submit that has not been
    answered yet; and after the answer. *)
Definition busyEvents : list Event :=
  [UploadChange (mkChangeEvent (Some [photo])); Settle 0 env_ok;
   PromptChange "add a hat"; SubmitForm].

Definition after (evs : list Event) : Sys :=
  match steps evs initialSys with
  | Some s => s
  | None => initialSys
  end.

Definition busySys : Sys := after busyEvents.
Definition editedSys : Sys := after (busyEvents ++ [Settle 0 env_ok])%list.
Definition resetSys : Sys :=
  after (busyEvents ++ [Settle 0 env_ok; ClickReset])%list.

(** ** The event loop: what the pending promises will do *)

(** The rest of [handleSubmit] after its [await] (the end of the [try]
    block, the [catch] and the [finally]), as a change of the state it
    finds when the call is settled. *)
Definition afterEdit (o : Settled string) (s : AppState) : AppState :=
  setIsLoading false
    match o with
    | Fulfilled b => setEditedImage (Some ("data:image/png;base64," ++ b)) s
    | Rejected (JsError m) => setError (Some m) s
    | Rejected (JsNonError _) => setError (Some "An unknown error occurred.") s
    end.

(** The rest of [handleImageUpload] after its [await]. *)
Definition afterRead (o : Settled Base64File) (w : World) : World :=
  match o with
  | Fulfilled r =>
      with_ui (setOriginalImage
                 (Some (mkImageState (base64Data r)
                                     (GeminiService.mimeType r)))) w
  | Rejected v =>
      observe (ObsConsoleError v)
        (with_ui (setError (Some "Failed to process image file.")) w)
  end.

(** A pending promise whose continuation is the rest of the handler that
    made the call. *)
Definition settles_exactly (p : Pending) : Prop :=
  match p with
  | @Pend R c k =>
      match c in GeminiService.Call R0
            return (Settled R0 -> Task unit) -> Prop with
      | editImageWithGemini _ _ _ => fun k0 =>
          forall (o : Settled string) (w : World),
            run (k0 o) w = (with_ui (afterEdit o) w, Finished (Returned tt))
      | fileToBase64 _ => fun k0 =>
          forall (o : Settled Base64File) (w : World),
            run (k0 o) w = (afterRead o w, Finished (Returned tt))
      end k
  end.

(** A second invariant of the event loop: every pending promise continues
    as its handler says, the loading flag is only set while an original
    image is present, and the file input is mounted exactly on the upload
    screen. *)
Definition Coherent (s : Sys) : Prop :=
  Forall settles_exactly (pending s) /\
  (isLoading (ui (world s)) = true ->
   originalImage (ui (world s)) <> None) /\
  (fileInput (world s) = None <-> originalImage (ui (world s)) <> None).

(** On the upload screen nothing of an earlier session is left. *)
Definition Clean (s : Sys) : Prop :=
  originalImage (ui (world s)) = None ->
  editedImage (ui (world s)) = None /\
  prompt (ui (world s)) = "" /\
  isLoading (ui (world s)) = false.

(** An observation that is not a malformed call: an edit request carries
    a non-empty prompt, a read is of a file whose type starts with
    "image/". *)
Definition call_ok (o : Obs) : Prop :=
  match o with
  | ObsCall (SomeCall c) =>
      match c with
      | editImageWithGemini _ _ p => p <> ""
      | fileToBase64 f => startsWith (type f) "image/" = true
      end
  | _ => True
  end.

(** More sample states: an image loaded and nothing typed yet; a read
    that has not been answered. *)
Definition idleSys : Sys :=
  after [UploadChange (mkChangeEvent (Some [photo])); Settle 0 env_ok].
Definition readingSys : Sys :=
  after [UploadChange (mkChangeEvent (Some [photo]))].

(** A run in which a second read, started before the first was answered,
    fails while an edit request is in flight. *)
Definition lateReadEvents : list Event :=
  [UploadChange (mkChangeEvent (Some [photo]));
   UploadChange (mkChangeEvent (Some [photo]));
   Settle 0 env_ok;
   PromptChange "add a hat";
   SubmitForm].

Definition lateReadSubmitted : Sys := after lateReadEvents.
Definition lateReadAnswered : Sys :=
  after (lateReadEvents ++
         [Settle 0 (env_reject (JsError "unreadable")); Settle 0 env_ok])%list.

(** ** Basic facts *)

Lemma truthy_false_iff (s : string) : truthy s = false <-> s = "".
Proof.
  destruct s; simpl; split; intros H; try reflexivity; discriminate H.
Qed.

Lemma truthy_true_iff (s : string) : truthy s = true <-> s <> "".
Proof.
  destruct s; simpl; split; intros H; try reflexivity;
    try discriminate H; try (intros E; discriminate E).
  exfalso; apply H; reflexivity.
Qed.

Lemma first_file_absent (event : ChangeEvent) :
  files event = None \/ files event = Some [] -> first_file event = None.
Proof.
  unfold first_file. intros [H | H]; rewrite H; reflexivity.
Qed.

(** The guard of [handleSubmit], read back on the state. *)
Lemma submit_guard (s : AppState) :
  negb (truthy (prompt s)) || negb (is_some (originalImage s)) = true
  <-> prompt s = "" \/ originalImage s = None.
Proof.
  rewrite orb_true_iff, !negb_true_iff, truthy_false_iff.
  destruct (originalImage s); simpl; split; intros [H | H];
    auto; discriminate H.
Qed.

Lemma submit_guard_passes (s : AppState) (img : ImageState) :
  prompt s <> "" -> originalImage s = Some img ->
  negb (truthy (prompt s)) || negb (is_some (originalImage s)) = false.
Proof.
  intros Hp Ho. rewrite Ho. apply truthy_true_iff in Hp. rewrite Hp.
  reflexivity.
Qed.

(** ** The handlers, run on their own *)

#[local] Arguments String.append : simpl never.

(** Expose the record behind a chain of setters. *)
Ltac setters :=
  unfold observe, with_ui, setOriginalImage, setEditedImage, setPrompt,
    setIsLoading, setError in *;
  simpl in *.

(** C1: in a state whose prompt is empty or whose original image is unset,
    the submit handler only sets the error to the fixed message: it
    returns normally, sends nothing to the remote service (the only thing
    it does outside the state is [preventDefault]) and keeps the original
    image, edited image, prompt and loading flag. *)
Theorem handleSubmit_missing_input (env : Env) (w : World) :
  prompt (ui w) = "" \/ originalImage (ui w) = None ->
  let w' := fst (exec env (handleSubmit (ui w)) w) in
  snd (exec env (handleSubmit (ui w)) w) = Returned tt /\
  error (ui w') = Some "Please provide an image and a prompt." /\
  trace w' = (trace w ++ [ObsPreventDefault])%list /\
  originalImage (ui w') = originalImage (ui w) /\
  editedImage (ui w') = editedImage (ui w) /\
  prompt (ui w') = prompt (ui w) /\
  isLoading (ui w') = isLoading (ui w).
Proof.
  intros H. apply submit_guard in H.
  unfold handleSubmit. simpl. rewrite H. simpl.
  repeat split; reflexivity.
Qed.

Lemma handleSubmit_missing_input_witness :
  (prompt (ui (sampleWorld initialState)) = "" \/
   originalImage (ui (sampleWorld initialState)) = None) /\
  error (ui (fst (exec env_ok (handleSubmit initialState)
                       (sampleWorld initialState))))
  = Some "Please provide an image and a prompt.".
Proof.
  split.
  - left. reflexivity.
  - apply (handleSubmit_missing_input env_ok (sampleWorld initialState)).
    left. reflexivity.
Defined.

(** C2: when the uploaded file's MIME type does not start with "image/",
    the upload handler sets the error to the fixed message and changes
    nothing else: original image, edited image, prompt and loading flag
    stay as they were, and no file is read. *)
Theorem handleImageUpload_not_image
  (env : Env) (w : World) (event : ChangeEvent) (file : File) :
  first_file event = Some file ->
  startsWith (type file) "image/" = false ->
  let w' := fst (exec env (handleImageUpload event) w) in
  snd (exec env (handleImageUpload event) w) = Returned tt /\
  error (ui w') =
    Some "Please upload a valid image file (PNG, JPG, WEBP, etc.)." /\
  originalImage (ui w') = originalImage (ui w) /\
  editedImage (ui w') = editedImage (ui w) /\
  prompt (ui w') = prompt (ui w) /\
  isLoading (ui w') = isLoading (ui w) /\
  trace w' = trace w.
Proof.
  intros Hf Ht. unfold handleImageUpload. rewrite Hf, Ht. simpl.
  repeat split; reflexivity.
Qed.

Lemma handleImageUpload_not_image_witness :
  originalImage
    (ui (fst (exec env_ok (handleImageUpload (mkChangeEvent (Some [notes])))
                   (sampleWorld initialState))))
  = originalImage (ui (sampleWorld initialState)).
Proof.
  apply (handleImageUpload_not_image env_ok (sampleWorld initialState)
           (mkChangeEvent (Some [notes])) notes); reflexivity.
Defined.

(** C10: a change event without a file (the file list is absent or
    empty) leaves everything as it was: the upload handler returns without
    touching any state cell, the file input or the outside. *)
Theorem handleImageUpload_no_file
  (env : Env) (w : World) (event : ChangeEvent) :
  files event = None \/ files event = Some [] ->
  exec env (handleImageUpload event) w = (w, Returned tt).
Proof.
  intros H. unfold handleImageUpload.
  rewrite (first_file_absent event H). reflexivity.
Qed.

Lemma handleImageUpload_no_file_witness :
  exec env_ok (handleImageUpload (mkChangeEvent (Some [])))
       (sampleWorld loaded)
  = (sampleWorld loaded, Returned tt).
Proof.
  apply (handleImageUpload_no_file env_ok (sampleWorld loaded)
           (mkChangeEvent (Some []))).
  right. reflexivity.
Defined.


(** The submit handler past its guard, up to the [await]. *)
Lemma handleSubmit_run (w : World) (img : ImageState) :
  prompt (ui w) <> "" ->
  originalImage (ui w) = Some img ->
  exists k,
    run (handleSubmit (ui w)) w =
      (mkWorld (mkAppState (Some img) None (prompt (ui w)) true None)
               (fileInput w)
               (trace w ++
                [ObsPreventDefault;
                 ObsCall (SomeCall (editImageWithGemini
                                      (data img) (mimeType img)
                                      (prompt (ui w))))]),
       Suspended (editImageWithGemini (data img) (mimeType img)
                                      (prompt (ui w))) k) /\
    forall (o : Settled string) (w1 : World),
      run (k o) w1 =
        (with_ui (fun s =>
                    setIsLoading false
                      match o with
                      | Fulfilled b =>
                          setEditedImage
                            (Some ("data:image/png;base64," ++ b)) s
                      | Rejected (JsError m) => setError (Some m) s
                      | Rejected (JsNonError _) =>
                          setError (Some "An unknown error occurred.") s
                      end) w1,
         Finished (Returned tt)).
Proof.
  intros Hp Ho. unfold handleSubmit. simpl.
  rewrite (submit_guard_passes _ img Hp Ho), Ho. simpl.
  eexists. split.
  - setters. rewrite Ho, <- app_assoc. reflexivity.
  - intros [b | [m | x]] w1; reflexivity.
Qed.

(** The submit handler past its guard, run to its end. *)
Lemma handleSubmit_exec (env : Env) (w : World) (img : ImageState) :
  prompt (ui w) <> "" ->
  originalImage (ui w) = Some img ->
  exec env (handleSubmit (ui w)) w =
    (mkWorld
       match env _ (editImageWithGemini (data img) (mimeType img)
                                        (prompt (ui w))) with
       | Fulfilled b =>
           mkAppState (Some img) (Some ("data:image/png;base64," ++ b))
                      (prompt (ui w)) false None
       | Rejected (JsError m) =>
           mkAppState (Some img) None (prompt (ui w)) false (Some m)
       | Rejected (JsNonError _) =>
           mkAppState (Some img) None (prompt (ui w)) false
                      (Some "An unknown error occurred.")
       end
       (fileInput w)
       (trace w ++
        [ObsPreventDefault;
         ObsCall (SomeCall (editImageWithGemini (data img) (mimeType img)
                                                (prompt (ui w))))]),
     Returned tt).
Proof.
  intros Hp Ho. unfold handleSubmit. simpl.
  rewrite (submit_guard_passes _ img Hp Ho), Ho. simpl.
  destruct (env _ (editImageWithGemini (data img) (mimeType img)
                                       (prompt (ui w)))) as [b | [m | x]];
    simpl; setters; rewrite Ho, <- app_assoc; reflexivity.
Qed.

(** The upload handler on a file it accepts, run to its end. *)
Lemma handleImageUpload_exec
  (env : Env) (w : World) (event : ChangeEvent) (file : File) :
  first_file event = Some file ->
  startsWith (type file) "image/" = true ->
  exec env (handleImageUpload event) w =
    match env _ (fileToBase64 file) with
    | Fulfilled r =>
        (mkWorld
           (mkAppState
              (Some (mkImageState (base64Data r) (GeminiService.mimeType r)))
              None (prompt (ui w)) (isLoading (ui w)) None)
           (fileInput w)
           (trace w ++ [ObsCall (SomeCall (fileToBase64 file))]),
         Returned tt)
    | Rejected v =>
        (mkWorld
           (mkAppState (originalImage (ui w)) None (prompt (ui w))
                       (isLoading (ui w))
                       (Some "Failed to process image file."))
           (fileInput w)
           (trace w ++ [ObsCall (SomeCall (fileToBase64 file));
                        ObsConsoleError v]),
         Returned tt)
    end.
Proof.
  intros Hf Ht. unfold handleImageUpload. rewrite Hf, Ht. simpl.
  destruct (env _ (fileToBase64 file)) as [r | v]; simpl.
  - reflexivity.
  - setters. rewrite <- app_assoc. reflexivity.
Qed.

(** The upload handler on a file it accepts, up to the [await]. *)
Lemma handleImageUpload_run
  (w : World) (event : ChangeEvent) (file : File) :
  first_file event = Some file ->
  startsWith (type file) "image/" = true ->
  exists k,
    run (handleImageUpload event) w =
      (mkWorld
         (mkAppState (originalImage (ui w)) None (prompt (ui w))
                     (isLoading (ui w)) None)
         (fileInput w)
         (trace w ++ [ObsCall (SomeCall (fileToBase64 file))]),
       Suspended (fileToBase64 file) k) /\
    forall (o : Settled Base64File) (w1 : World),
      run (k o) w1 =
        (match o with
         | Fulfilled r =>
             with_ui (setOriginalImage
                        (Some (mkImageState (base64Data r)
                                            (GeminiService.mimeType r)))) w1
         | Rejected v =>
             observe (ObsConsoleError v)
               (with_ui (setError (Some "Failed to process image file.")) w1)
         end,
         Finished (Returned tt)).
Proof.
  intros Hf Ht. unfold handleImageUpload. rewrite Hf, Ht. simpl.
  eexists. split; [reflexivity |].
  intros [r | v] w1; reflexivity.
Qed.

(** C8: uploading a valid image file whose read succeeds.  When the
    handler reaches the [await] it has already cleared the error and the
    previous edited image and has not touched the original image; once the
    read is fulfilled it sets the original image to the data and MIME type
    that [fileToBase64] returned for the file.  Over the whole run the
    prompt and the loading flag are unchanged. *)
Theorem handleImageUpload_success
  (env : Env) (w : World) (event : ChangeEvent) (file : File)
  (r : Base64File) :
  first_file event = Some file ->
  startsWith (type file) "image/" = true ->
  env _ (fileToBase64 file) = Fulfilled r ->
  (exists k,
      run (handleImageUpload event) w =
        (mkWorld
           (mkAppState (originalImage (ui w)) None (prompt (ui w))
                       (isLoading (ui w)) None)
           (fileInput w)
           (trace w ++ [ObsCall (SomeCall (fileToBase64 file))]),
         Suspended (fileToBase64 file) k) /\
      forall w1 : World,
        run (k (Fulfilled r)) w1 =
          (with_ui (setOriginalImage
                      (Some (mkImageState (base64Data r)
                                          (GeminiService.mimeType r)))) w1,
           Finished (Returned tt))) /\
  exec env (handleImageUpload event) w =
    (mkWorld
       (mkAppState
          (Some (mkImageState (base64Data r) (GeminiService.mimeType r)))
          None (prompt (ui w)) (isLoading (ui w)) None)
       (fileInput w)
       (trace w ++ [ObsCall (SomeCall (fileToBase64 file))]),
     Returned tt).
Proof.
  intros Hf Ht He. split.
  - destruct (handleImageUpload_run w event file Hf Ht) as (k & Hrun & Hk).
    exists k. split; [exact Hrun |].
    intros w1. apply (Hk (Fulfilled r)).
  - rewrite (handleImageUpload_exec env w event file Hf Ht), He.
    reflexivity.
Qed.

Lemma handleImageUpload_success_witness :
  ui (fst (exec env_ok (handleImageUpload (mkChangeEvent (Some [photo])))
                (sampleWorld (setOriginalImage None loaded))))
  = mkAppState (Some (mkImageState "aGVsbG8=" "image/png"))
               None "add a hat" false None.
Proof.
  destruct (handleImageUpload_success env_ok
              (sampleWorld (setOriginalImage None loaded))
              (mkChangeEvent (Some [photo])) photo
              (mkBase64File "aGVsbG8=" "image/png")
              eq_refl eq_refl eq_refl) as [_ H].
  rewrite H. reflexivity.
Defined.

(** C7: when the guard passes, the request the submit handler sends is
    [editImageWithGemini] applied to the stored image's [data], its
    [mimeType] and the prompt, unmodified, and it is the only call the
    handler issues on the way to the [await]. *)
Theorem handleSubmit_request (w : World) (img : ImageState) :
  prompt (ui w) <> "" ->
  originalImage (ui w) = Some img ->
  exists k w1,
    run (handleSubmit (ui w)) w =
      (w1, Suspended (editImageWithGemini (data img) (mimeType img)
                                          (prompt (ui w))) k) /\
    trace w1 =
      (trace w ++
       [ObsPreventDefault;
        ObsCall (SomeCall (editImageWithGemini (data img) (mimeType img)
                                               (prompt (ui w))))])%list.
Proof.
  intros Hp Ho.
  destruct (handleSubmit_run w img Hp Ho) as (k & Hrun & _).
  exists k. eexists. split; [exact Hrun | reflexivity].
Qed.

Lemma handleSubmit_request_witness :
  exists k w1,
    run (handleSubmit loaded) (sampleWorld loaded) =
      (w1, Suspended (editImageWithGemini "aGVsbG8=" "image/png" "add a hat")
             k).
Proof.
  destruct (handleSubmit_request (sampleWorld loaded)
              (mkImageState "aGVsbG8=" "image/png")) as (k & w1 & H & _).
  - intros E; discriminate E.
  - reflexivity.
  - exists k, w1. exact H.
Defined.

Lemma edit_calls_app (t u : list Obs) :
  edit_calls (t ++ u) = edit_calls t + edit_calls u.
Proof.
  unfold edit_calls. rewrite filter_app, length_app. reflexivity.
Qed.

(** C5: one invocation of the submit handler whose guard passes calls the
    remote service exactly once, however the call is settled: the handler
    adds [preventDefault] and one edit call to the trace, nothing more,
    and returns. *)
Theorem handleSubmit_calls_once (env : Env) (w : World) (img : ImageState) :
  prompt (ui w) <> "" ->
  originalImage (ui w) = Some img ->
  let w' := fst (exec env (handleSubmit (ui w)) w) in
  trace w' =
    (trace w ++
     [ObsPreventDefault;
      ObsCall (SomeCall (editImageWithGemini (data img) (mimeType img)
                                             (prompt (ui w))))])%list /\
  edit_calls (trace w') = edit_calls (trace w) + 1 /\
  snd (exec env (handleSubmit (ui w)) w) = Returned tt.
Proof.
  intros Hp Ho.
  rewrite (handleSubmit_exec env w img Hp Ho). simpl.
  split; [reflexivity |]. split; [| reflexivity].
  rewrite edit_calls_app. reflexivity.
Qed.

Lemma handleSubmit_calls_once_witness :
  edit_calls
    (trace (fst (exec (env_reject (JsError "quota exceeded"))
                      (handleSubmit loaded) (sampleWorld loaded))))
  = 1.
Proof.
  destruct (handleSubmit_calls_once (env_reject (JsError "quota exceeded"))
              (sampleWorld loaded) (mkImageState "aGVsbG8=" "image/png"))
    as (_ & H & _).
  - intros E; discriminate E.
  - reflexivity.
  - exact H.
Defined.

(** ** The event loop: the invariant *)

Lemma take_nth_Forall {A : Type} (P : A -> Prop) (l : list A) :
  forall i x r, take_nth i l = Some (x, r) -> Forall P l -> P x /\ Forall P r.
Proof.
  induction l as [| y l IH]; intros i x r H HF; [destruct i; discriminate H |].
  inversion HF as [| ? ? Hy Hl]; subst.
  destruct i as [| i]; simpl in H.
  - inversion H; subst. split; assumption.
  - destruct (take_nth i l) as [[z q] |] eqn:E; [| discriminate H].
    inversion H; subst.
    destruct (IH i x q E Hl) as [Hx Hq].
    split; [exact Hx | constructor; assumption].
Qed.

Lemma take_nth_count {A : Type} (f : A -> bool) (l : list A) :
  forall i x r, take_nth i l = Some (x, r) ->
  length (filter f l) = (if f x then 1 else 0) + length (filter f r).
Proof.
  induction l as [| y l IH]; intros i x r H; [destruct i; discriminate H |].
  destruct i as [| i]; simpl in H.
  - inversion H; subst. simpl. destruct (f x); reflexivity.
  - destruct (take_nth i l) as [[z q] |] eqn:E; [| discriminate H].
    inversion H; subst. simpl.
    destruct (f y); simpl; rewrite (IH i x q E); lia.
Qed.

Lemma unhandled_app (t u : list Obs) :
  unhandled (t ++ u) = unhandled t + unhandled u.
Proof.
  unfold unhandled. rewrite filter_app, length_app. reflexivity.
Qed.

(** The handlers' own observations are never uncaught rejections. *)
Ltac count_unhandled :=
  simpl; rewrite ?unhandled_app; unfold unhandled; simpl; lia.

Lemma in_flight_snoc (w : World) (l : list Pending) (p : Pending) :
  in_flight (mkSys w (l ++ [p])) =
  in_flight (mkSys w l) + (if is_edit_pending p then 1 else 0).
Proof.
  unfold in_flight; simpl. rewrite filter_app, length_app. simpl.
  destruct (is_edit_pending p); reflexivity.
Qed.

(** A handler segment that returns: the pending promises stay as they
    are and the new state is rendered. *)
Lemma dispatch_finished (t : Task unit) (w w' : World) (rest : list Pending) :
  run t w = (w', Finished (Returned tt)) ->
  dispatch t w rest = mkSys (commit w') rest.
Proof. intros H. unfold dispatch. rewrite H. reflexivity. Qed.

(** A handler segment that stops at an [await]: its promise is added. *)
Lemma dispatch_suspended {R : Type} (t : Task unit) (w w' : World)
  (rest : list Pending) (c : GeminiService.Call R)
  (k : Settled R -> Task unit) :
  run t w = (w', Suspended c k) ->
  dispatch t w rest = mkSys (commit w') (rest ++ [Pend c k]).
Proof. intros H. unfold dispatch. rewrite H. reflexivity. Qed.

(** The three ways [handleImageUpload] can go, up to its [await]. *)
Lemma handleImageUpload_cases (event : ChangeEvent) (w : World) :
  (exists w',
      run (handleImageUpload event) w = (w', Finished (Returned tt)) /\
      isLoading (ui w') = isLoading (ui w) /\
      trace w' = trace w) \/
  (exists file k w',
      run (handleImageUpload event) w = (w', Suspended (fileToBase64 file) k) /\
      isLoading (ui w') = isLoading (ui w) /\
      unhandled (trace w') = unhandled (trace w) /\
      settles_well (Pend (fileToBase64 file) k)).
Proof.
  destruct (first_file event) as [file |] eqn:Hf.
  - destruct (startsWith (type file) "image/") eqn:Ht.
    + right.
      destruct (handleImageUpload_run w event file Hf Ht) as (k & Hrun & Hk).
      exists file, k. eexists. split; [exact Hrun |].
      split; [reflexivity |]. split.
      * count_unhandled.
      * intros o w1. eexists. split; [apply Hk |].
        destruct o as [r | v]; simpl.
        -- split; reflexivity.
        -- split; [count_unhandled | reflexivity].
    + left. unfold handleImageUpload. rewrite Hf, Ht. simpl.
      eexists. split; [reflexivity |]. split; reflexivity.
  - left. unfold handleImageUpload. rewrite Hf. simpl.
    eexists. split; [reflexivity |]. split; reflexivity.
Qed.

(** The two ways [handleSubmit] can go, up to its [await]. *)
Lemma handleSubmit_cases (w : World) :
  (exists w',
      run (handleSubmit (ui w)) w = (w', Finished (Returned tt)) /\
      isLoading (ui w') = isLoading (ui w) /\
      unhandled (trace w') = unhandled (trace w)) \/
  (exists b m p k w',
      run (handleSubmit (ui w)) w =
        (w', Suspended (editImageWithGemini b m p) k) /\
      isLoading (ui w') = true /\
      unhandled (trace w') = unhandled (trace w) /\
      settles_well (Pend (editImageWithGemini b m p) k)).
Proof.
  destruct (negb (truthy (prompt (ui w))) ||
            negb (is_some (originalImage (ui w)))) eqn:G.
  - left. unfold handleSubmit. simpl. rewrite G. simpl.
    eexists. split; [reflexivity |]. split; [reflexivity |].
    count_unhandled.
  - right. apply orb_false_iff in G. destruct G as [Gp Go].
    apply negb_false_iff in Gp, Go.
    destruct (originalImage (ui w)) as [img |] eqn:Ho; [| discriminate Go].
    apply truthy_true_iff in Gp.
    destruct (handleSubmit_run w img Gp Ho) as (k & Hrun & Hk).
    exists (data img), (mimeType img), (prompt (ui w)), k.
    eexists. split; [exact Hrun |].
    split; [reflexivity |]. split.
    + count_unhandled.
    + intros o w1. eexists. split; [apply Hk |].
      split; reflexivity.
Qed.

Lemma initial_Inv : Inv initialSys.
Proof.
  unfold Inv, initialSys, in_flight; simpl.
  split; [constructor |]. split; reflexivity.
Qed.

(** While the loading flag is set, nothing in the form can be used. *)
Lemma render_loading (s : AppState) (f : Form) :
  form (render s) = Some f ->
  isLoading s = true ->
  promptDisabled f = true /\ generateDisabled f = true /\
  resetDisabled f = true.
Proof.
  unfold render. intros Hf Hl.
  destruct (originalImage s); simpl in Hf; [| discriminate Hf].
  inversion Hf; subst; simpl. rewrite Hl. repeat split; reflexivity.
Qed.

Lemma render_form_flags (s : AppState) (f : Form) :
  form (render s) = Some f ->
  promptDisabled f = isLoading s /\
  generateDisabled f = (isLoading s || negb (truthy (prompt s))) /\
  resetDisabled f = isLoading s.
Proof.
  unfold render. intros Hf.
  destruct (originalImage s); simpl in Hf; [| discriminate Hf].
  inversion Hf; subst; simpl. repeat split; reflexivity.
Qed.

(** Every turn of the event loop keeps the invariant. *)
Lemma step_Inv (ev : Event) (s s' : Sys) :
  Inv s -> step ev s = Some s' -> Inv s'.
Proof.
  intros (HF & Hn & Hu) H. destruct s as [w ps].
  unfold step in H; simpl in H. unfold in_flight in Hn; simpl in *.
  destruct ev as [event | value | | | i env].
  - (* upload *)
    destruct (uploadInput (render (ui w))); [| discriminate H].
    inversion H; subst; clear H.
    set (w0 := mkWorld (ui w) (Some (input_value_of event)) (trace w)).
    destruct (handleImageUpload_cases event w0)
      as [(w' & Hr & Hl & Ht) | (file & k & w' & Hr & Hl & Ht & Hk)].
    + rewrite (dispatch_finished _ _ _ _ Hr).
      unfold Inv, in_flight; simpl. rewrite Hl, Ht. simpl.
      repeat split; assumption.
    + rewrite (dispatch_suspended _ _ _ _ _ _ Hr).
      unfold Inv; simpl. split; [| split].
      * apply Forall_app. split; [assumption |].
        constructor; [exact Hk | constructor].
      * rewrite in_flight_snoc. unfold in_flight; simpl.
        rewrite Hl. simpl. lia.
      * rewrite Ht. exact Hu.
  - (* prompt *)
    destruct (form (render (ui w))) as [f |]; [| discriminate H].
    destruct (promptDisabled f); [discriminate H |].
    inversion H; subst; clear H.
    unfold Inv, in_flight; simpl. repeat split; assumption.
  - (* submit *)
    destruct (form (render (ui w))) as [f |] eqn:Hf; [| discriminate H].
    destruct (render_form_flags _ _ Hf) as (Hp & Hg & _).
    rewrite Hp, Hg in H.
    destruct (isLoading (ui w)) eqn:Hl; [discriminate H |].
    rewrite andb_false_r in H.
    inversion H; subst; clear H.
    destruct (handleSubmit_cases w)
      as [(w' & Hr & Hl' & Ht) | (b & m & p & k & w' & Hr & Hl' & Ht & Hk)].
    + rewrite (dispatch_finished _ _ _ _ Hr).
      unfold Inv, in_flight; simpl. rewrite Hl', Ht, Hl.
      repeat split; assumption.
    + rewrite (dispatch_suspended _ _ _ _ _ _ Hr).
      unfold Inv; simpl. split; [| split].
      * apply Forall_app. split; [assumption |].
        constructor; [exact Hk | constructor].
      * rewrite in_flight_snoc. unfold in_flight; simpl.
        rewrite Hl', Hn. reflexivity.
      * rewrite Ht. exact Hu.
  - (* reset *)
    destruct (form (render (ui w))) as [f |] eqn:Hf; [| discriminate H].
    destruct (render_form_flags _ _ Hf) as (_ & _ & Hr).
    rewrite Hr in H.
    destruct (isLoading (ui w)) eqn:Hl; [discriminate H |].
    inversion H; subst; clear H.
    unfold dispatch, handleReset; simpl.
    destruct (fileInput w); simpl;
      unfold Inv, in_flight; simpl; repeat split; assumption.
  - (* a promise settles *)
    destruct (take_nth i ps) as [[[R c k] rest] |] eqn:Hq; [| discriminate H].
    inversion H; subst; clear H.
    destruct (take_nth_Forall _ _ _ _ _ Hq HF) as [Hk HF'].
    pose proof (take_nth_count is_edit_pending _ _ _ _ Hq) as Hc.
    destruct (Hk (env _ c) w) as (w' & Hr & Ht & Hl).
    rewrite (dispatch_finished _ _ _ _ Hr).
    unfold Inv, in_flight; simpl. split; [exact HF' |].
    split; [| rewrite Ht; exact Hu].
    rewrite Hl. rewrite Hc in Hn.
    destruct (is_edit_pending (Pend c k)).
    + destruct (isLoading (ui w)); lia.
    + simpl in Hn. exact Hn.
Qed.

Lemma steps_Inv (evs : list Event) :
  forall s s', Inv s -> steps evs s = Some s' -> Inv s'.
Proof.
  induction evs as [| ev evs IH]; intros s s' HI H; simpl in H.
  - inversion H; subst. exact HI.
  - destruct (step ev s) as [s1 |] eqn:E; [| discriminate H].
    apply (IH s1 s'); [apply (step_Inv ev s s1 HI E) | exact H].
Qed.

Lemma reachable_Inv (s : Sys) : reachable s -> Inv s.
Proof.
  intros [evs H]. apply (steps_Inv evs initialSys s initial_Inv H).
Qed.

Lemma busySys_reachable : reachable busySys.
Proof. exists busyEvents. reflexivity. Qed.

Lemma editedSys_reachable : reachable editedSys.
Proof. exists (busyEvents ++ [Settle 0 env_ok])%list. reflexivity. Qed.

Example busySys_in_flight : in_flight busySys = 1.
Proof. reflexivity. Qed.

Example busySys_resubmit : step SubmitForm busySys = None.
Proof. reflexivity. Qed.

Example editedSys_in_flight : in_flight editedSys = 0.
Proof. reflexivity. Qed.

(** C3: at most one edit request is in flight.  The submit handler has
    set the loading flag when it sends the request, and the rest of the
    handler clears it however the request is settled; while the flag is
    set the prompt input and the Generate button are disabled and the form
    cannot be submitted; and no reachable state of the event loop has more
    than one request outstanding. *)
Theorem one_request_in_flight :
  (forall (w : World) (img : ImageState),
      prompt (ui w) <> "" ->
      originalImage (ui w) = Some img ->
      exists k w1,
        run (handleSubmit (ui w)) w =
          (w1, Suspended (editImageWithGemini (data img) (mimeType img)
                                              (prompt (ui w))) k) /\
        isLoading (ui w1) = true /\
        forall (o : Settled string) (w2 : World),
        exists w3,
          run (k o) w2 = (w3, Finished (Returned tt)) /\
          isLoading (ui w3) = false) /\
  (forall (s : AppState) (f : Form),
      form (render s) = Some f ->
      isLoading s = true ->
      promptDisabled f = true /\ generateDisabled f = true) /\
  (forall s : Sys,
      isLoading (ui (world s)) = true -> step SubmitForm s = None) /\
  (forall s : Sys, reachable s -> in_flight s <= 1).
Proof.
  split; [| split; [| split]].
  - intros w img Hp Ho.
    destruct (handleSubmit_run w img Hp Ho) as (k & Hrun & Hk).
    exists k. eexists. split; [exact Hrun |]. split; [reflexivity |].
    intros o w2. eexists. split; [apply Hk | reflexivity].
  - intros s f Hf Hl.
    destruct (render_loading s f Hf Hl) as (Hp & Hg & _).
    split; assumption.
  - intros s Hl. unfold step.
    destruct (form (render (ui (world s)))) as [f |] eqn:Hf; [| reflexivity].
    destruct (render_loading _ f Hf Hl) as (Hp & Hg & _).
    rewrite Hp, Hg. reflexivity.
  - intros s Hs. destruct (reachable_Inv s Hs) as (_ & Hn & _).
    rewrite Hn. destruct (isLoading (ui (world s))); lia.
Qed.

Lemma one_request_in_flight_witness :
  reachable busySys /\ in_flight busySys <= 1.
Proof.
  split.
  - exact busySys_reachable.
  - destruct one_request_in_flight as (_ & _ & _ & H).
    apply (H busySys). exact busySys_reachable.
Defined.

(** C4, as amended: failures end up in the error cell and nowhere else.
    Both async handlers return normally however their call is settled; a
    failed read of the uploaded file sets the error to "Failed to process
    image file."; a failed remote call sets it to the message of the
    thrown [Error], and to "An unknown error occurred." when what was
    thrown is not an [Error]; the view shows the error cell whenever it
    holds a non-empty string; and in no reachable state of the event loop
    has a rejection gone uncaught. *)
Theorem failures_are_surfaced :
  (forall (env : Env) (w : World) (event : ChangeEvent),
      snd (exec env (handleImageUpload event) w) = Returned tt) /\
  (forall (env : Env) (w : World) (rendered : AppState),
      snd (exec env (handleSubmit rendered) w) = Returned tt) /\
  (forall (env : Env) (w : World) (event : ChangeEvent) (file : File)
          (v : JsThrown),
      first_file event = Some file ->
      startsWith (type file) "image/" = true ->
      env _ (fileToBase64 file) = Rejected v ->
      error (ui (fst (exec env (handleImageUpload event) w)))
      = Some "Failed to process image file.") /\
  (forall (env : Env) (w : World) (img : ImageState) (m : string),
      prompt (ui w) <> "" ->
      originalImage (ui w) = Some img ->
      env _ (editImageWithGemini (data img) (mimeType img) (prompt (ui w)))
        = Rejected (JsError m) ->
      error (ui (fst (exec env (handleSubmit (ui w)) w))) = Some m) /\
  (forall (env : Env) (w : World) (img : ImageState) (x : string),
      prompt (ui w) <> "" ->
      originalImage (ui w) = Some img ->
      env _ (editImageWithGemini (data img) (mimeType img) (prompt (ui w)))
        = Rejected (JsNonError x) ->
      error (ui (fst (exec env (handleSubmit (ui w)) w)))
      = Some "An unknown error occurred.") /\
  (forall (s : AppState) (m : string),
      error s = Some m -> m <> "" -> shownError (render s) = Some m) /\
  (forall s : Sys, reachable s -> unhandled (trace (world s)) = 0).
Proof.
  split; [| split; [| split; [| split; [| split; [| split]]]]].
  - intros env w event. unfold handleImageUpload.
    destruct (first_file event) as [file |]; [| reflexivity].
    destruct (startsWith (type file) "image/"); simpl; [| reflexivity].
    destruct (env _ (fileToBase64 file)); reflexivity.
  - intros env w rendered. unfold handleSubmit. simpl.
    destruct (negb (truthy (prompt rendered)) ||
              negb (is_some (originalImage rendered))); simpl;
      [reflexivity |].
    destruct (originalImage rendered) as [img |]; simpl; [| reflexivity].
    destruct (env _ (editImageWithGemini (data img) (mimeType img)
                                         (prompt rendered)));
      reflexivity.
  - intros env w event file v Hf Ht He.
    rewrite (handleImageUpload_exec env w event file Hf Ht), He.
    reflexivity.
  - intros env w img m Hp Ho He.
    rewrite (handleSubmit_exec env w img Hp Ho), He. reflexivity.
  - intros env w img x Hp Ho He.
    rewrite (handleSubmit_exec env w img Hp Ho), He. reflexivity.
  - intros s m He Hm. apply truthy_true_iff in Hm.
    unfold render. destruct (originalImage s); simpl;
      rewrite He; simpl; rewrite Hm; reflexivity.
  - intros s Hs. destruct (reachable_Inv s Hs) as (_ & _ & Hu). exact Hu.
Qed.

Lemma failures_are_surfaced_witness :
  error (ui (fst (exec (env_reject (JsError "quota exceeded"))
                       (handleSubmit loaded) (sampleWorld loaded))))
  = Some "quota exceeded" /\
  error (ui (fst (exec (env_reject (JsNonError "503"))
                       (handleSubmit loaded) (sampleWorld loaded))))
  = Some "An unknown error occurred." /\
  error (ui (fst (exec (env_reject (JsError "unreadable"))
                       (handleImageUpload (mkChangeEvent (Some [photo])))
                       (sampleWorld initialState))))
  = Some "Failed to process image file." /\
  unhandled (trace (world editedSys)) = 0.
Proof.
  destruct failures_are_surfaced
    as (_ & _ & Hread & Herr & Hother & _ & Hsys).
  split; [| split; [| split]].
  - apply (Herr (env_reject (JsError "quota exceeded")) (sampleWorld loaded)
             (mkImageState "aGVsbG8=" "image/png") "quota exceeded");
      [intros E; discriminate E | reflexivity | reflexivity].
  - apply (Hother (env_reject (JsNonError "503")) (sampleWorld loaded)
             (mkImageState "aGVsbG8=" "image/png") "503");
      [intros E; discriminate E | reflexivity | reflexivity].
  - apply (Hread (env_reject (JsError "unreadable"))
             (sampleWorld initialState) (mkChangeEvent (Some [photo])) photo
             (JsError "unreadable")); reflexivity.
  - apply (Hsys editedSys). exact editedSys_reachable.
Defined.

(** C9: the reset handler puts every state cell back to its initial value
    whatever the state was: original image and edited image null, prompt
    empty, loading flag false, error null; if the file input is mounted
    its value becomes empty.  So reset does not depend on the state it is
    applied to and doing it twice is the same as doing it once.  In the
    event loop a click on Reset leaves the initial state on screen with an
    empty file input. *)
Theorem handleReset_initial :
  (forall (env : Env) (w : World),
      exec env handleReset w =
        (mkWorld initialState
                 (match fileInput w with
                  | Some _ => Some ""
                  | None => None
                  end)
                 (trace w),
         Returned tt)) /\
  (forall (env : Env) (w : World) (v : string),
      fileInput (fst (exec env handleReset w)) = Some v -> v = "") /\
  (forall (env : Env) (w1 w2 : World),
      ui (fst (exec env handleReset w1)) =
      ui (fst (exec env handleReset w2))) /\
  (forall (env : Env) (w : World),
      exec env handleReset (fst (exec env handleReset w)) =
      exec env handleReset w) /\
  (forall s s' : Sys,
      step ClickReset s = Some s' ->
      world s' = mkWorld initialState (Some "") (trace (world s)) /\
      pending s' = pending s).
Proof.
  assert (H : forall (env : Env) (w : World),
             exec env handleReset w =
               (mkWorld initialState
                        (match fileInput w with
                         | Some _ => Some ""
                         | None => None
                         end)
                        (trace w),
                Returned tt)).
  { intros env [u [v |] t]; reflexivity. }
  split; [exact H | split; [| split; [| split]]].
  - intros env w v. rewrite H. simpl.
    destruct (fileInput w); intros E; inversion E; reflexivity.
  - intros env w1 w2. rewrite !H. reflexivity.
  - intros env w. rewrite !H. simpl.
    destruct (fileInput w); reflexivity.
  - intros [[u fi t] ps] s' Hs. unfold step in Hs; simpl in Hs.
    destruct (form (render u)) as [f |]; [| discriminate Hs].
    destruct (resetDisabled f); [discriminate Hs |].
    inversion Hs; subst; clear Hs.
    destruct fi; split; reflexivity.
Qed.

Lemma handleReset_initial_witness :
  step ClickReset editedSys = Some resetSys /\
  ui (world resetSys) = initialState /\
  fileInput (world resetSys) = Some "".
Proof.
  destruct handleReset_initial as (_ & _ & _ & _ & H).
  destruct (H editedSys resetSys eq_refl) as [Hw _].
  split; [reflexivity |]. rewrite Hw. split; reflexivity.
Defined.

(** A read that was started by an earlier change event can still fail
    while an edit request is in flight: its handler then writes the error
    cell, and the answer of the edit request does not clear it. *)
Example late_read_failure :
  let s := after [UploadChange (mkChangeEvent (Some [photo]));
                  UploadChange (mkChangeEvent (Some [photo]));
                  Settle 0 env_ok;
                  PromptChange "add a hat";
                  SubmitForm;
                  Settle 0 (env_reject (JsError "unreadable"));
                  Settle 0 env_ok] in
  ui (world s) =
    mkAppState (Some (mkImageState "aGVsbG8=" "image/png"))
               (Some "data:image/png;base64,iVBORw0KGgo=")
               "add a hat" false (Some "Failed to process image file.") /\
  pending s = [].
Proof. split; reflexivity. Qed.

(** ** The event loop: pending promises and the screens *)

Lemma handleImageUpload_outcomes (event : ChangeEvent) (w : World) :
  (exists w',
      run (handleImageUpload event) w = (w', Finished (Returned tt)) /\
      originalImage (ui w') = originalImage (ui w) /\
      isLoading (ui w') = isLoading (ui w)) \/
  (exists file k w',
      run (handleImageUpload event) w = (w', Suspended (fileToBase64 file) k) /\
      originalImage (ui w') = originalImage (ui w) /\
      isLoading (ui w') = isLoading (ui w) /\
      settles_exactly (Pend (fileToBase64 file) k)).
Proof.
  destruct (first_file event) as [file |] eqn:Hf.
  - destruct (startsWith (type file) "image/") eqn:Ht.
    + right.
      destruct (handleImageUpload_run w event file Hf Ht) as (k & Hrun & Hk).
      exists file, k. eexists. split; [exact Hrun |].
      split; [reflexivity |]. split; [reflexivity |].
      intros o w1. rewrite Hk. destruct o; reflexivity.
    + left. unfold handleImageUpload. rewrite Hf, Ht. simpl.
      eexists. split; [reflexivity |]. split; reflexivity.
  - left. unfold handleImageUpload. rewrite Hf. simpl.
    eexists. split; [reflexivity |]. split; reflexivity.
Qed.

Lemma handleSubmit_outcomes (w : World) :
  (exists w',
      run (handleSubmit (ui w)) w = (w', Finished (Returned tt)) /\
      originalImage (ui w') = originalImage (ui w) /\
      isLoading (ui w') = isLoading (ui w)) \/
  (exists b m p k w',
      run (handleSubmit (ui w)) w =
        (w', Suspended (editImageWithGemini b m p) k) /\
      originalImage (ui w') = originalImage (ui w) /\
      settles_exactly (Pend (editImageWithGemini b m p) k)).
Proof.
  destruct (negb (truthy (prompt (ui w))) ||
            negb (is_some (originalImage (ui w)))) eqn:G.
  - left. unfold handleSubmit. simpl. rewrite G. simpl.
    eexists. split; [reflexivity |]. split; reflexivity.
  - right. apply orb_false_iff in G. destruct G as [Gp Go].
    apply negb_false_iff in Gp, Go.
    destruct (originalImage (ui w)) as [img |] eqn:Ho; [| discriminate Go].
    apply truthy_true_iff in Gp.
    destruct (handleSubmit_run w img Gp Ho) as (k & Hrun & Hk).
    exists (data img), (mimeType img), (prompt (ui w)), k.
    eexists. split; [exact Hrun |]. split; [reflexivity |].
    intros o w1. rewrite Hk. destruct o as [b | [m | x]]; reflexivity.
Qed.

Lemma commit_fileInput (w : World) :
  fileInput (commit w) = None <-> originalImage (ui (commit w)) <> None.
Proof.
  unfold commit, render; simpl.
  destruct (originalImage (ui w)); simpl; split; intros H;
    try reflexivity; try discriminate H; try (intros E; discriminate E).
  exfalso; apply H; reflexivity.
Qed.

Lemma initial_Coherent : Coherent initialSys.
Proof.
  unfold Coherent, initialSys; simpl. split; [constructor |].
  split; [intros H; discriminate H |].
  split; intros H; [discriminate H | exfalso; apply H; reflexivity].
Qed.

(** The form is rendered exactly when an original image is present. *)
Lemma render_form_original (s : AppState) :
  (exists f, form (render s) = Some f) <-> originalImage s <> None.
Proof.
  unfold render. destruct (originalImage s); simpl; split.
  - intros _ E; discriminate E.
  - intros _. eexists; reflexivity.
  - intros [f E]; discriminate E.
  - intros H; exfalso; apply H; reflexivity.
Qed.

Lemma render_upload_original (s : AppState) :
  uploadInput (render s) = true <-> originalImage s = None.
Proof.
  unfold render. destruct (originalImage s); simpl; split; intros H;
    try reflexivity; discriminate H.
Qed.

Lemma Coherent_commit (w : World) (ps : list Pending) :
  Forall settles_exactly ps ->
  (isLoading (ui w) = true -> originalImage (ui w) <> None) ->
  Coherent (mkSys (commit w) ps).
Proof.
  intros HF Hl. split; [exact HF |].
  split; [exact Hl | apply commit_fileInput].
Qed.

Lemma step_Coherent (ev : Event) (s s' : Sys) :
  Coherent s -> step ev s = Some s' -> Coherent s'.
Proof.
  intros (HF & Hl & Hi) H. destruct s as [w ps].
  unfold step in H; simpl in *.
  destruct ev as [event | value | | | i env].
  - (* upload: only on the upload screen, so nothing is loading *)
    destruct (uploadInput (render (ui w))) eqn:Hu; [| discriminate H].
    apply render_upload_original in Hu.
    inversion H; subst; clear H.
    set (w0 := mkWorld (ui w) (Some (input_value_of event)) (trace w)).
    assert (Hnl : isLoading (ui w0) = false).
    { simpl. destruct (isLoading (ui w)); [| reflexivity].
      exfalso. apply (Hl eq_refl). exact Hu. }
    destruct (handleImageUpload_outcomes event w0)
      as [(w' & Hr & Ho & Hload) | (file & k & w' & Hr & Ho & Hload & Hk)].
    + rewrite (dispatch_finished _ _ _ _ Hr).
      apply Coherent_commit; [exact HF |].
      rewrite Hload, Hnl. intros E; discriminate E.
    + rewrite (dispatch_suspended _ _ _ _ _ _ Hr).
      apply Coherent_commit.
      * apply Forall_app. split; [exact HF |].
        constructor; [exact Hk | constructor].
      * rewrite Hload, Hnl. intros E; discriminate E.
  - (* prompt *)
    destruct (form (render (ui w))) as [f |]; [| discriminate H].
    destruct (promptDisabled f); [discriminate H |].
    inversion H; subst; clear H.
    apply (Coherent_commit (with_ui (setPrompt value) w) ps HF Hl).
  - (* submit: the form is there, so an original image is *)
    destruct (form (render (ui w))) as [f |] eqn:Hf; [| discriminate H].
    assert (Hsome : originalImage (ui w) <> None).
    { apply render_form_original. exists f. exact Hf. }
    destruct (generateDisabled f && promptDisabled f); [discriminate H |].
    inversion H; subst; clear H.
    destruct (handleSubmit_outcomes w)
      as [(w' & Hr & Ho & Hload) | (b & m & p & k & w' & Hr & Ho & Hk)].
    + rewrite (dispatch_finished _ _ _ _ Hr).
      apply Coherent_commit; [exact HF |].
      intros _. rewrite Ho. exact Hsome.
    + rewrite (dispatch_suspended _ _ _ _ _ _ Hr).
      apply Coherent_commit.
      * apply Forall_app. split; [exact HF |].
        constructor; [exact Hk | constructor].
      * intros _. rewrite Ho. exact Hsome.
  - (* reset *)
    destruct (form (render (ui w))) as [f |]; [| discriminate H].
    destruct (resetDisabled f); [discriminate H |].
    inversion H; subst; clear H.
    destruct w as [u [v |] t];
      [ apply (Coherent_commit (mkWorld initialState (Some "") t) ps HF)
      | apply (Coherent_commit (mkWorld initialState None t) ps HF) ];
      intros E; discriminate E.
  - (* a promise settles *)
    destruct (take_nth i ps) as [[[R c k] rest] |] eqn:Hq; [| discriminate H].
    inversion H; subst; clear H.
    destruct (take_nth_Forall _ _ _ _ _ Hq HF) as [Hk HF'].
    clear Hq. destruct c as [b m p | file]; simpl in Hk.
    + rewrite (dispatch_finished _ _ _ _ (Hk _ w)).
      apply Coherent_commit; [exact HF' |].
      intros E; discriminate E.
    + rewrite (dispatch_finished _ _ _ _ (Hk _ w)).
      apply Coherent_commit; [exact HF' |].
      destruct (env _ (fileToBase64 file)) as [r | v]; simpl.
      * intros _ E; discriminate E.
      * exact Hl.
Qed.

Lemma steps_Coherent (evs : list Event) :
  forall s s', Coherent s -> steps evs s = Some s' -> Coherent s'.
Proof.
  induction evs as [| ev evs IH]; intros s s' HI H; simpl in H.
  - inversion H; subst. exact HI.
  - destruct (step ev s) as [s1 |] eqn:E; [| discriminate H].
    apply (IH s1 s'); [apply (step_Coherent ev s s1 HI E) | exact H].
Qed.

Lemma reachable_Coherent (s : Sys) : reachable s -> Coherent s.
Proof.
  intros [evs H]. apply (steps_Coherent evs initialSys s initial_Coherent H).
Qed.

(** ** Further properties of the component *)

(** X1: [ImageDisplay] shows the spinner whenever it is loading, whatever
    the URL; it shows an image exactly when it is not loading and the URL
    is a non-empty string, and then that URL; and the placeholder is only
    ever shown by the edited pane. *)
Theorem ImageDisplay_cases (imageUrl : option string) (loading isOriginal : bool) :
  (loading = true -> ImageDisplay imageUrl loading isOriginal = Spinner) /\
  (forall src : string,
      ImageDisplay imageUrl loading isOriginal = Image src <->
      loading = false /\ imageUrl = Some src /\ src <> "") /\
  (ImageDisplay imageUrl loading isOriginal = Placeholder ->
   isOriginal = false).
Proof.
  unfold ImageDisplay. split; [| split].
  - intros H; rewrite H; reflexivity.
  - intros src. destruct loading.
    + split; [intros H; discriminate H | intros (H & _); discriminate H].
    + destruct imageUrl as [url |].
      * destruct (truthy url) eqn:Hu.
        -- split.
           ++ intros H; inversion H; subst.
              apply truthy_true_iff in Hu. repeat split; assumption.
           ++ intros (_ & H & _); inversion H; reflexivity.
        -- apply truthy_false_iff in Hu. subst url. split.
           ++ destruct isOriginal; intros H; discriminate H.
           ++ intros (_ & H & Hn); inversion H; subst.
              exfalso; apply Hn; reflexivity.
      * split.
        -- destruct isOriginal; intros H; discriminate H.
        -- intros (_ & H & _); discriminate H.
  - destruct loading; [intros H; discriminate H |].
    destruct imageUrl as [url |]; [destruct (truthy url) |];
      destruct isOriginal; intros H; try discriminate H; reflexivity.
Qed.

Lemma ImageDisplay_cases_witness :
  ImageDisplay (Some "data:image/png;base64,b2xk") true false = Spinner /\
  ImageDisplay (Some "data:image/png;base64,b2xk") false false
  = Image "data:image/png;base64,b2xk".
Proof.
  split.
  - destruct (ImageDisplay_cases (Some "data:image/png;base64,b2xk")
                                 true false) as (H & _).
    apply H. reflexivity.
  - destruct (ImageDisplay_cases (Some "data:image/png;base64,b2xk")
                                 false false) as (_ & H & _).
    apply H. split; [reflexivity |]. split; [reflexivity |].
    intros E; discriminate E.
Defined.

(** X2: once an original image is stored, its pane always shows it, as
    the URL "data:" + mimeType + ";base64," + data: the original pane
    never shows the spinner (not even while an edit is loading), the
    placeholder or nothing, whatever the stored strings are. *)
Theorem render_original_pane (s : AppState) (img : ImageState) :
  originalImage s = Some img ->
  originalPane (render s)
  = Some (Image ("data:" ++ mimeType img ++ ";base64," ++ data img)).
Proof.
  intros H. unfold render. rewrite H. reflexivity.
Qed.

Lemma render_original_pane_witness :
  originalPane (render (setIsLoading true loaded))
  = Some (Image "data:image/png;base64,aGVsbG8=").
Proof.
  apply (render_original_pane (setIsLoading true loaded)
           (mkImageState "aGVsbG8=" "image/png")).
  reflexivity.
Defined.

(** X3: the two screens exclude each other.  Without an original image
    only the upload input can be used: the prompt cannot be changed, the
    form cannot be submitted and Reset cannot be clicked.  With an
    original image the upload input is gone, so no new upload can be
    started until the editor is reset. *)
Theorem screens_exclusive (s : Sys) :
  (originalImage (ui (world s)) = None ->
   (forall value, step (PromptChange value) s = None) /\
   step SubmitForm s = None /\
   step ClickReset s = None /\
   (forall event, step (UploadChange event) s <> None)) /\
  (originalImage (ui (world s)) <> None ->
   forall event, step (UploadChange event) s = None).
Proof.
  unfold step. split.
  - intros H. unfold render. rewrite H. simpl.
    repeat split; try reflexivity. intros event E; discriminate E.
  - intros H event. unfold render.
    destruct (originalImage (ui (world s))); [reflexivity |].
    exfalso; apply H; reflexivity.
Qed.

Lemma screens_exclusive_witness :
  step SubmitForm initialSys = None /\
  step (UploadChange (mkChangeEvent (Some [photo]))) idleSys = None.
Proof.
  split.
  - destruct (screens_exclusive initialSys) as [H _].
    destruct (H eq_refl) as (_ & Hs & _). exact Hs.
  - destruct (screens_exclusive idleSys) as [_ H].
    apply H. intros E; discriminate E.
Defined.

(** X4: while an edit request is in flight the user can do nothing: in
    every reachable state with a request outstanding, uploading, typing
    in the prompt, submitting and resetting are all impossible, so the
    request can be neither cancelled nor overtaken; only the settlement
    of a promise can happen next. *)
Theorem locked_while_in_flight (s : Sys) :
  reachable s ->
  in_flight s = 1 ->
  (forall event, step (UploadChange event) s = None) /\
  (forall value, step (PromptChange value) s = None) /\
  step SubmitForm s = None /\
  step ClickReset s = None.
Proof.
  intros Hs Hn.
  destruct (reachable_Inv s Hs) as (_ & Hc & _).
  destruct (reachable_Coherent s Hs) as (_ & Hl & _).
  rewrite Hn in Hc.
  destruct (isLoading (ui (world s))) eqn:Hload; [| discriminate Hc].
  specialize (Hl eq_refl).
  unfold step, render.
  destruct (originalImage (ui (world s))) as [img |];
    [| exfalso; apply Hl; reflexivity].
  simpl. rewrite Hload. simpl. repeat split; reflexivity.
Qed.

Lemma locked_while_in_flight_witness :
  step ClickReset busySys = None /\
  step (PromptChange "add a scarf") busySys = None.
Proof.
  destruct (locked_while_in_flight busySys busySys_reachable eq_refl)
    as (_ & Hp & _ & Hr).
  split; [exact Hr | apply Hp].
Defined.

(** X5: in every reachable state the edited pane shows the spinner
    exactly when an edit request is in flight. *)
Theorem spinner_iff_in_flight (s : Sys) :
  reachable s ->
  (in_flight s = 1 <-> editedPane (render (ui (world s))) = Some Spinner).
Proof.
  intros Hs.
  destruct (reachable_Inv s Hs) as (_ & Hc & _).
  destruct (reachable_Coherent s Hs) as (_ & Hl & _).
  rewrite Hc. unfold render, ImageDisplay.
  destruct (isLoading (ui (world s))) eqn:Hload.
  - specialize (Hl eq_refl).
    destruct (originalImage (ui (world s)));
      [| exfalso; apply Hl; reflexivity].
    simpl. split; reflexivity.
  - split; [intros E; discriminate E |].
    destruct (originalImage (ui (world s))); simpl;
      [| intros E; discriminate E].
    destruct (editedImage (ui (world s))) as [url |];
      [destruct (truthy url) |]; intros E; discriminate E.
Qed.

Lemma spinner_iff_in_flight_witness :
  editedPane (render (ui (world busySys))) = Some Spinner.
Proof.
  apply (spinner_iff_in_flight busySys busySys_reachable). reflexivity.
Defined.



(** X7: a failed read of an accepted file.  The handler has already
    cleared the edited image; it keeps the original image, the prompt and
    the loading flag, sets the error to the fixed message and passes the
    thrown value to [console.error], once; it makes no other call. *)
Theorem handleImageUpload_read_failure
  (env : Env) (w : World) (event : ChangeEvent) (file : File)
  (v : JsThrown) :
  first_file event = Some file ->
  startsWith (type file) "image/" = true ->
  env _ (fileToBase64 file) = Rejected v ->
  exec env (handleImageUpload event) w =
    (mkWorld
       (mkAppState (originalImage (ui w)) None (prompt (ui w))
                   (isLoading (ui w))
                   (Some "Failed to process image file."))
       (fileInput w)
       (trace w ++ [ObsCall (SomeCall (fileToBase64 file));
                    ObsConsoleError v]),
     Returned tt).
Proof.
  intros Hf Ht He.
  rewrite (handleImageUpload_exec env w event file Hf Ht), He.
  reflexivity.
Qed.

Lemma handleImageUpload_read_failure_witness :
  trace (fst (exec (env_reject (JsNonError "abort"))
                   (handleImageUpload (mkChangeEvent (Some [photo])))
                   (sampleWorld initialState)))
  = [ObsCall (SomeCall (fileToBase64 photo));
     ObsConsoleError (JsNonError "abort")].
Proof.
  rewrite (handleImageUpload_read_failure (env_reject (JsNonError "abort"))
             (sampleWorld initialState) (mkChangeEvent (Some [photo])) photo
             (JsNonError "abort") eq_refl eq_refl eq_refl).
  reflexivity.
Defined.

(** X8: a remote failure with an [Error] whose message is empty is
    silent.  The error cell becomes the empty string, which the view does
    not render, and the edited pane is back to its placeholder: the user
    sees neither a result nor a message. *)
Theorem handleSubmit_empty_message_silent
  (env : Env) (w : World) (img : ImageState) :
  prompt (ui w) <> "" ->
  originalImage (ui w) = Some img ->
  env _ (editImageWithGemini (data img) (mimeType img) (prompt (ui w)))
    = Rejected (JsError "") ->
  let w' := fst (exec env (handleSubmit (ui w)) w) in
  error (ui w') = Some "" /\
  shownError (render (ui w')) = None /\
  editedPane (render (ui w')) = Some Placeholder.
Proof.
  intros Hp Ho He.
  rewrite (handleSubmit_exec env w img Hp Ho), He. simpl.
  repeat split; reflexivity.
Qed.

Lemma handleSubmit_empty_message_silent_witness :
  shownError
    (render (ui (fst (exec (env_reject (JsError ""))
                           (handleSubmit loaded) (sampleWorld loaded)))))
  = None.
Proof.
  destruct (handleSubmit_empty_message_silent (env_reject (JsError ""))
              (sampleWorld loaded) (mkImageState "aGVsbG8=" "image/png"))
    as (_ & H & _).
  - intros E; discriminate E.
  - reflexivity.
  - reflexivity.
  - exact H.
Defined.

(** A submit that passes the guard, as a turn of the event loop. *)
Lemma step_submit_sends (s : Sys) (img : ImageState) :
  originalImage (ui (world s)) = Some img ->
  isLoading (ui (world s)) = false ->
  prompt (ui (world s)) <> "" ->
  exists s',
    step SubmitForm s = Some s' /\
    ui (world s') =
      mkAppState (Some img) None (prompt (ui (world s))) true None /\
    trace (world s') =
      (trace (world s) ++
       [ObsPreventDefault;
        ObsCall (SomeCall (editImageWithGemini
                             (data img) (mimeType img)
                             (prompt (ui (world s)))))])%list /\
    in_flight s' = in_flight s + 1.
Proof.
  intros Ho Hl Hp.
  destruct (handleSubmit_run (world s) img Hp Ho) as (k & Hrun & _).
  unfold step, render. rewrite Ho. simpl. rewrite Hl.
  rewrite andb_false_r.
  rewrite (dispatch_suspended _ _ _ _ _ _ Hrun).
  eexists. split; [reflexivity |].
  split; [reflexivity |]. split; [reflexivity |].
  apply in_flight_snoc.
Qed.

Lemma step_prompt_change (s : Sys) (img : ImageState) (value : string) :
  originalImage (ui (world s)) = Some img ->
  isLoading (ui (world s)) = false ->
  step (PromptChange value) s =
    Some (mkSys (commit (with_ui (setPrompt value) (world s))) (pending s)).
Proof.
  intros Ho Hl. unfold step, render. rewrite Ho. simpl. rewrite Hl.
  reflexivity.
Qed.

Lemma steps_two (e1 e2 : Event) (s s1 s2 : Sys) :
  step e1 s = Some s1 -> step e2 s1 = Some s2 ->
  steps [e1; e2] s = Some s2.
Proof. intros H1 H2. simpl. rewrite H1, H2. reflexivity. Qed.

(** X9: typing and submitting.  In any state with an original image and
    nothing loading, changing the prompt to a non-empty [value] and then
    submitting the form sends exactly one request, for the stored image
    and the typed text; afterwards the loading flag is set, the error and
    the previous edited image are cleared, and one more request is in
    flight. *)
Theorem type_then_submit (s : Sys) (img : ImageState) (value : string) :
  originalImage (ui (world s)) = Some img ->
  isLoading (ui (world s)) = false ->
  value <> "" ->
  exists s',
    steps [PromptChange value; SubmitForm] s = Some s' /\
    ui (world s') = mkAppState (Some img) None value true None /\
    trace (world s') =
      (trace (world s) ++
       [ObsPreventDefault;
        ObsCall (SomeCall (editImageWithGemini (data img) (mimeType img)
                                               value))])%list /\
    in_flight s' = in_flight s + 1.
Proof.
  intros Ho Hl Hv.
  pose proof (step_prompt_change s img value Ho Hl) as H1.
  destruct (step_submit_sends
              (mkSys (commit (with_ui (setPrompt value) (world s)))
                     (pending s)) img Ho Hl Hv)
    as (s' & H2 & Hu & Ht & Hn).
  exists s'. split; [exact (steps_two _ _ _ _ _ H1 H2) |].
  split; [exact Hu |]. split; [exact Ht | exact Hn].
Qed.

Lemma type_then_submit_witness :
  exists s',
    steps [PromptChange "add a scarf"; SubmitForm] idleSys = Some s' /\
    in_flight s' = 1.
Proof.
  destruct (type_then_submit idleSys (mkImageState "aGVsbG8=" "image/png")
              "add a scarf") as (s' & Hs & _ & _ & Hn).
  - reflexivity.
  - reflexivity.
  - intros E; discriminate E.
  - exists s'. split; [exact Hs | exact Hn].
Defined.

(** X10: the answer to an edit request always lands.  In every reachable
    state, whatever happened since the request was sent, settling a
    pending edit request runs the rest of the submit handler on the
    current state: a fulfilled request sets the edited image to
    "data:image/png;base64," followed by the answer, a rejected one sets
    the error; both clear the loading flag, keep the original image and
    the prompt, add nothing to the trace and remove the request from the
    pending ones. *)
Theorem edit_answer_lands
  (s : Sys) (i : nat) (b m p : string) (k : Settled string -> Task unit)
  (rest : list Pending) (env : Env) :
  reachable s ->
  take_nth i (pending s) = Some (Pend (editImageWithGemini b m p) k, rest) ->
  exists s',
    step (Settle i env) s = Some s' /\
    ui (world s') =
      mkAppState
        (originalImage (ui (world s)))
        match env _ (editImageWithGemini b m p) with
        | Fulfilled r => Some ("data:image/png;base64," ++ r)
        | Rejected _ => editedImage (ui (world s))
        end
        (prompt (ui (world s)))
        false
        match env _ (editImageWithGemini b m p) with
        | Fulfilled _ => error (ui (world s))
        | Rejected (JsError msg) => Some msg
        | Rejected (JsNonError _) => Some "An unknown error occurred."
        end /\
    trace (world s') = trace (world s) /\
    pending s' = rest.
Proof.
  intros Hs Hq.
  destruct (reachable_Coherent s Hs) as (HF & _ & _).
  destruct (take_nth_Forall _ _ _ _ _ Hq HF) as [Hk _].
  simpl in Hk.
  unfold step. rewrite Hq.
  rewrite (dispatch_finished _ _ _ _ (Hk _ (world s))).
  eexists. split; [reflexivity |].
  split; [| split; reflexivity].
  simpl. unfold afterEdit.
  destruct (env _ (editImageWithGemini b m p)) as [r | [msg | x]];
    reflexivity.
Qed.

Lemma edit_answer_lands_witness :
  exists s',
    step (Settle 0 env_ok) busySys = Some s' /\
    editedImage (ui (world s')) = Some "data:image/png;base64,iVBORw0KGgo=" /\
    isLoading (ui (world s')) = false.
Proof.
  assert (Hq : exists k,
             take_nth 0 (pending busySys)
             = Some (Pend (editImageWithGemini "aGVsbG8=" "image/png"
                                               "add a hat") k, [])).
  { eexists. vm_compute. reflexivity. }
  destruct Hq as [k Hq].
  destruct (edit_answer_lands busySys 0 _ _ _ k [] env_ok
              busySys_reachable Hq) as (s' & Hstep & Hu & _).
  exists s'. split; [exact Hstep |].
  rewrite Hu. split; reflexivity.
Defined.

(** X11: the result of a file read always lands, too.  In every reachable
    state, settling a pending read runs the rest of the upload handler on
    the current state: a fulfilled read sets the original image to the
    returned data and MIME type, even if another image has been stored or
    the editor has been reset in the meantime; a rejected read sets the
    error to the fixed message and logs the thrown value.  Nothing else
    changes and the read is removed from the pending ones. *)
Theorem read_result_lands
  (s : Sys) (i : nat) (file : File) (k : Settled Base64File -> Task unit)
  (rest : list Pending) (env : Env) :
  reachable s ->
  take_nth i (pending s) = Some (Pend (fileToBase64 file) k, rest) ->
  exists s',
    step (Settle i env) s = Some s' /\
    pending s' = rest /\
    match env _ (fileToBase64 file) with
    | Fulfilled r =>
        ui (world s') =
          mkAppState
            (Some (mkImageState (base64Data r) (GeminiService.mimeType r)))
            (editedImage (ui (world s))) (prompt (ui (world s)))
            (isLoading (ui (world s))) (error (ui (world s))) /\
        trace (world s') = trace (world s)
    | Rejected v =>
        ui (world s') =
          mkAppState
            (originalImage (ui (world s))) (editedImage (ui (world s)))
            (prompt (ui (world s))) (isLoading (ui (world s)))
            (Some "Failed to process image file.") /\
        trace (world s') = (trace (world s) ++ [ObsConsoleError v])%list
    end.
Proof.
  intros Hs Hq.
  destruct (reachable_Coherent s Hs) as (HF & _ & _).
  destruct (take_nth_Forall _ _ _ _ _ Hq HF) as [Hk _].
  simpl in Hk.
  unfold step. rewrite Hq.
  rewrite (dispatch_finished _ _ _ _ (Hk _ (world s))).
  eexists. split; [reflexivity |]. split; [reflexivity |].
  destruct (env _ (fileToBase64 file)) as [r | v]; split; reflexivity.
Qed.

Lemma read_result_lands_witness :
  exists s',
    step (Settle 0 env_ok) readingSys = Some s' /\
    originalImage (ui (world s'))
    = Some (mkImageState "aGVsbG8=" "image/png").
Proof.
  assert (Hq : exists k,
             take_nth 0 (pending readingSys)
             = Some (Pend (fileToBase64 photo) k, [])).
  { eexists. vm_compute. reflexivity. }
  destruct Hq as [k Hq].
  destruct (read_result_lands readingSys 0 photo k [] env_ok
              (ex_intro _ [UploadChange (mkChangeEvent (Some [photo]))]
                        eq_refl) Hq) as (s' & Hstep & _ & Hu).
  exists s'. split; [exact Hstep |].
  simpl in Hu. destruct Hu as [Hu _]. rewrite Hu. reflexivity.
Defined.

(** X12: in every reachable state the file input is mounted exactly when
    no original image is stored.  So whenever Reset can be clicked,
    [fileInputRef.current] is null and the handler skips the assignment
    to the input's value: the input the user sees after a reset is a
    newly mounted, empty one. *)
Theorem reset_finds_no_input (s : Sys) :
  reachable s ->
  (fileInput (world s) = None <-> originalImage (ui (world s)) <> None) /\
  (forall s',
      step ClickReset s = Some s' ->
      snd (perform FileInputRefCurrent (world s)) = None /\
      fileInput (world s') = Some "").
Proof.
  intros Hs.
  destruct (reachable_Coherent s Hs) as (_ & _ & Hi).
  split; [exact Hi |].
  intros s' H. unfold step in H.
  destruct (form (render (ui (world s)))) as [f |] eqn:Hf;
    [| discriminate H].
  assert (Hn : fileInput (world s) = None).
  { apply Hi. apply render_form_original. exists f. exact Hf. }
  destruct (resetDisabled f); [discriminate H |].
  inversion H; subst; clear H.
  destruct s as [[u fi t] ps]. simpl in Hn. subst fi.
  split; reflexivity.
Qed.

Lemma reset_finds_no_input_witness :
  fileInput (world editedSys) = None /\
  originalImage (ui (world editedSys)) <> None.
Proof.
  destruct (reset_finds_no_input editedSys editedSys_reachable) as [H _].
  split; [reflexivity |]. apply H. reflexivity.
Defined.

(** ** The event loop: the upload screen and the calls made *)

Lemma form_original (s : AppState) (f : Form) :
  form (render s) = Some f -> originalImage s <> None.
Proof.
  intros H. apply render_form_original. exists f. exact H.
Qed.

Lemma take_nth_edit_in_flight (s : Sys) (i : nat) (b m p : string)
  (k : Settled string -> Task unit) (rest : list Pending) :
  Inv s -> Coherent s ->
  take_nth i (pending s) = Some (Pend (editImageWithGemini b m p) k, rest) ->
  originalImage (ui (world s)) <> None.
Proof.
  intros (_ & Hn & _) (_ & Hl & _) Hq.
  apply Hl. unfold in_flight in Hn.
  rewrite (take_nth_count is_edit_pending _ _ _ _ Hq) in Hn. simpl in Hn.
  destruct (isLoading (ui (world s))); [reflexivity | lia].
Qed.

Lemma step_Clean (ev : Event) (s s' : Sys) :
  Inv s -> Coherent s -> Clean s -> step ev s = Some s' -> Clean s'.
Proof.
  intros HI HC Hc H.
  pose proof HC as (HF & _ & _).
  destruct s as [w ps]. unfold Clean in Hc. unfold step in H. simpl in *.
  destruct ev as [event | value | | | i env].
  - (* upload *)
    destruct (uploadInput (render (ui w))) eqn:Hu; [| discriminate H].
    apply render_upload_original in Hu. destruct (Hc Hu) as (He & Hp & Hl).
    inversion H; subst; clear H.
    set (w0 := mkWorld (ui w) (Some (input_value_of event)) (trace w)).
    destruct (first_file event) as [file |] eqn:Hf.
    + destruct (startsWith (type file) "image/") eqn:Ht.
      * destruct (handleImageUpload_run w0 event file Hf Ht)
          as (k & Hrun & _).
        rewrite (dispatch_suspended _ _ _ _ _ _ Hrun).
        intros _. simpl. repeat split; assumption.
      * unfold dispatch, handleImageUpload. rewrite Hf, Ht. simpl.
        intros _. simpl. repeat split; assumption.
    + unfold dispatch, handleImageUpload. rewrite Hf. simpl.
      intros _. simpl. repeat split; assumption.
  - (* prompt *)
    destruct (form (render (ui w))) as [f |] eqn:Hf; [| discriminate H].
    apply form_original in Hf.
    destruct (promptDisabled f); [discriminate H |].
    inversion H; subst; clear H.
    intros E. simpl in E. exfalso; apply Hf; exact E.
  - (* submit *)
    destruct (form (render (ui w))) as [f |] eqn:Hf; [| discriminate H].
    apply form_original in Hf.
    destruct (generateDisabled f && promptDisabled f); [discriminate H |].
    inversion H; subst; clear H.
    destruct (handleSubmit_outcomes w)
      as [(w' & Hr & Ho & _) | (b & m & p & k & w' & Hr & Ho & _)].
    + rewrite (dispatch_finished _ _ _ _ Hr).
      intros E. simpl in E. rewrite Ho in E. exfalso; apply Hf; exact E.
    + rewrite (dispatch_suspended _ _ _ _ _ _ Hr).
      intros E. simpl in E. rewrite Ho in E. exfalso; apply Hf; exact E.
  - (* reset *)
    destruct (form (render (ui w))) as [f |]; [| discriminate H].
    destruct (resetDisabled f); [discriminate H |].
    inversion H; subst; clear H.
    destruct w as [u [v |] t]; intros _; repeat split; reflexivity.
  - (* a promise settles *)
    destruct (take_nth i ps) as [[[R c k] rest] |] eqn:Hq; [| discriminate H].
    inversion H; subst; clear H.
    destruct (take_nth_Forall _ _ _ _ _ Hq HF) as [Hk _].
    destruct c as [b m p | file]; simpl in Hk.
    + pose proof (take_nth_edit_in_flight (mkSys w ps) i b m p k rest
                    HI HC Hq) as Hsome.
      rewrite (dispatch_finished _ _ _ _ (Hk _ w)).
      intros E. exfalso. apply Hsome. simpl in *.
      destruct (env _ (editImageWithGemini b m p)) as [r | [msg | x]];
        exact E.
    + rewrite (dispatch_finished _ _ _ _ (Hk _ w)).
      destruct (env _ (fileToBase64 file)) as [r | v]; simpl.
      * intros E. discriminate E.
      * exact Hc.
Qed.

Lemma steps_all (evs : list Event) :
  forall s s',
    Inv s /\ Coherent s /\ Clean s ->
    steps evs s = Some s' ->
    Inv s' /\ Coherent s' /\ Clean s'.
Proof.
  induction evs as [| ev evs IH]; intros s s' HI H; simpl in H.
  - inversion H; subst. exact HI.
  - destruct (step ev s) as [s1 |] eqn:E; [| discriminate H].
    destruct HI as (H1 & H2 & H3).
    apply (IH s1 s'); [| exact H].
    split; [apply (step_Inv ev s s1 H1 E) |].
    split; [apply (step_Coherent ev s s1 H2 E) |].
    apply (step_Clean ev s s1 H1 H2 H3 E).
Qed.

(** X13: the upload screen is always clean.  In every reachable state
    without an original image, the edited image is null, the prompt is
    empty and the loading flag is false: of the five state cells only the
    error can differ from its initial value there. *)
Theorem upload_screen_clean (s : Sys) :
  reachable s ->
  originalImage (ui (world s)) = None ->
  editedImage (ui (world s)) = None /\
  prompt (ui (world s)) = "" /\
  isLoading (ui (world s)) = false.
Proof.
  intros [evs H].
  assert (H0 : Inv initialSys /\ Coherent initialSys /\ Clean initialSys).
  { split; [exact initial_Inv |]. split; [exact initial_Coherent |].
    intros _. repeat split; reflexivity. }
  destruct (steps_all evs initialSys s H0 H) as (_ & _ & Hc).
  exact Hc.
Qed.

Lemma upload_screen_clean_witness :
  originalImage (ui (world resetSys)) = None /\
  prompt (ui (world resetSys)) = "".
Proof.
  assert (Hr : reachable resetSys).
  { exists (busyEvents ++ [Settle 0 env_ok; ClickReset])%list.
    vm_compute. reflexivity. }
  assert (Ho : originalImage (ui (world resetSys)) = None).
  { vm_compute. reflexivity. }
  split; [exact Ho |].
  destruct (upload_screen_clean resetSys Hr Ho) as (_ & Hp & _).
  exact Hp.
Defined.

(** What one turn of the event loop adds to the trace. *)
Lemma step_trace (ev : Event) (s s' : Sys) :
  Coherent s -> step ev s = Some s' ->
  exists l, trace (world s') = (trace (world s) ++ l)%list /\
            Forall call_ok l.
Proof.
  intros (HF & _ & _) H. destruct s as [w ps].
  unfold step in H. simpl in *.
  destruct ev as [event | value | | | i env].
  - (* upload *)
    destruct (uploadInput (render (ui w))); [| discriminate H].
    inversion H; subst; clear H.
    set (w0 := mkWorld (ui w) (Some (input_value_of event)) (trace w)).
    destruct (first_file event) as [file |] eqn:Hf.
    + destruct (startsWith (type file) "image/") eqn:Ht.
      * destruct (handleImageUpload_run w0 event file Hf Ht)
          as (k & Hrun & _).
        rewrite (dispatch_suspended _ _ _ _ _ _ Hrun).
        eexists. split; [reflexivity |].
        constructor; [exact Ht | constructor].
      * unfold dispatch, handleImageUpload. rewrite Hf, Ht. simpl.
        exists []. rewrite app_nil_r. split; [reflexivity | constructor].
    + unfold dispatch, handleImageUpload. rewrite Hf. simpl.
      exists []. rewrite app_nil_r. split; [reflexivity | constructor].
  - (* prompt *)
    destruct (form (render (ui w))) as [f |]; [| discriminate H].
    destruct (promptDisabled f); [discriminate H |].
    inversion H; subst; clear H.
    exists []. rewrite app_nil_r. split; [reflexivity | constructor].
  - (* submit *)
    destruct (form (render (ui w))) as [f |]; [| discriminate H].
    destruct (generateDisabled f && promptDisabled f); [discriminate H |].
    inversion H; subst; clear H.
    destruct (negb (truthy (prompt (ui w))) ||
              negb (is_some (originalImage (ui w)))) eqn:G.
    + unfold dispatch, handleSubmit. simpl. rewrite G. simpl.
      eexists. split; [reflexivity |].
      constructor; [exact I | constructor].
    + apply orb_false_iff in G. destruct G as [Gp Go].
      apply negb_false_iff in Gp, Go.
      destruct (originalImage (ui w)) as [img |] eqn:Ho; [| discriminate Go].
      apply truthy_true_iff in Gp.
      destruct (handleSubmit_run w img Gp Ho) as (k & Hrun & _).
      rewrite (dispatch_suspended _ _ _ _ _ _ Hrun).
      eexists. split; [reflexivity |].
      constructor; [exact I |]. constructor; [exact Gp | constructor].
  - (* reset *)
    destruct (form (render (ui w))) as [f |]; [| discriminate H].
    destruct (resetDisabled f); [discriminate H |].
    inversion H; subst; clear H.
    exists []. rewrite app_nil_r.
    destruct w as [u [v |] t]; split; try reflexivity; constructor.
  - (* a promise settles *)
    destruct (take_nth i ps) as [[[R c k] rest] |] eqn:Hq; [| discriminate H].
    inversion H; subst; clear H.
    destruct (take_nth_Forall _ _ _ _ _ Hq HF) as [Hk _].
    clear Hq. destruct c as [b m p | file]; simpl in Hk.
    + rewrite (dispatch_finished _ _ _ _ (Hk _ w)).
      exists []. rewrite app_nil_r. split; [reflexivity | constructor].
    + rewrite (dispatch_finished _ _ _ _ (Hk _ w)).
      destruct (env _ (fileToBase64 file)) as [r | v]; simpl.
      * exists []. rewrite app_nil_r. split; [reflexivity | constructor].
      * eexists. split; [reflexivity |].
        constructor; [exact I | constructor].
Qed.

Lemma steps_calls (evs : list Event) :
  forall s s',
    Coherent s -> Forall call_ok (trace (world s)) ->
    steps evs s = Some s' ->
    Forall call_ok (trace (world s')).
Proof.
  induction evs as [| ev evs IH]; intros s s' HC Ht H; simpl in H.
  - inversion H; subst. exact Ht.
  - destruct (step ev s) as [s1 |] eqn:E; [| discriminate H].
    apply (IH s1 s'); [apply (step_Coherent ev s s1 HC E) | | exact H].
    destruct (step_trace ev s s1 HC E) as (l & Hl & Hok).
    rewrite Hl. apply Forall_app. split; assumption.
Qed.

(** X14: the component never makes a malformed call.  In the trace of
    every reachable state, each edit request carries a non-empty prompt
    and each file read is of a file whose type starts with "image/". *)
Theorem calls_well_formed (s : Sys) :
  reachable s ->
  (forall b m p : string,
      In (ObsCall (SomeCall (editImageWithGemini b m p))) (trace (world s)) ->
      p <> "") /\
  (forall f : File,
      In (ObsCall (SomeCall (fileToBase64 f))) (trace (world s)) ->
      startsWith (type f) "image/" = true).
Proof.
  intros [evs H].
  assert (Hok : Forall call_ok (trace (world s))).
  { apply (steps_calls evs initialSys s initial_Coherent); [| exact H].
    constructor. }
  rewrite Forall_forall in Hok.
  split.
  - intros b m p Hin. apply (Hok _ Hin).
  - intros f Hin. apply (Hok _ Hin).
Qed.

Lemma calls_well_formed_witness :
  In (ObsCall (SomeCall (editImageWithGemini "aGVsbG8=" "image/png"
                                             "add a hat")))
     (trace (world busySys)) /\
  "add a hat" <> "".
Proof.
  assert (Hin : In (ObsCall (SomeCall (editImageWithGemini
                                         "aGVsbG8=" "image/png" "add a hat")))
                   (trace (world busySys))).
  { vm_compute. right. right. left. reflexivity. }
  split; [exact Hin |].
  destruct (calls_well_formed busySys busySys_reachable) as [He _].
  apply (He _ _ _ Hin).
Defined.

(** ** Failures and answers on the event loop *)

(** C4, the claim as first stated, fails: a remote call rejected with an
    [Error] whose message is empty is a failure, the handler sets the
    error cell to the empty string, and the view shows no error string. *)
Lemma failures_are_surfaced_counterexample :
  env_reject (JsError "") string
    (editImageWithGemini "aGVsbG8=" "image/png" "add a hat")
  = Rejected (JsError "") /\
  exec (env_reject (JsError "")) (handleSubmit loaded) (sampleWorld loaded)
  = (mkWorld
       (mkAppState (Some (mkImageState "aGVsbG8=" "image/png")) None
                   "add a hat" false (Some ""))
       None
       [ObsPreventDefault;
        ObsCall (SomeCall (editImageWithGemini "aGVsbG8=" "image/png"
                                               "add a hat"))],
     Returned tt) /\
  shownError
    (render (ui (fst (exec (env_reject (JsError "")) (handleSubmit loaded)
                           (sampleWorld loaded)))))
  = None.
Proof. repeat split; vm_compute; reflexivity. Qed.

(** Settling a pending edit request in a reachable state. *)
Lemma step_settle_edit
  (s : Sys) (i : nat) (b m p : string) (k : Settled string -> Task unit)
  (rest : list Pending) (env : Env) :
  reachable s ->
  take_nth i (pending s) = Some (Pend (editImageWithGemini b m p) k, rest) ->
  originalImage (ui (world s)) <> None /\
  step (Settle i env) s =
    Some (mkSys (commit (with_ui (afterEdit (env _ (editImageWithGemini b m p)))
                                 (world s)))
                rest).
Proof.
  intros Hs Hq.
  pose proof (reachable_Inv s Hs) as HI.
  pose proof (reachable_Coherent s Hs) as HC.
  split; [apply (take_nth_edit_in_flight s i b m p k rest HI HC Hq) |].
  destruct HC as (HF & _ & _).
  destruct (take_nth_Forall _ _ _ _ _ Hq HF) as [Hk _].
  simpl in Hk.
  unfold step. rewrite Hq.
  rewrite (dispatch_finished _ _ _ _ (Hk _ (world s))). reflexivity.
Qed.

(** C6, as amended: a successful submit.  Run with nothing in between, a
    submit with a non-empty prompt and an original image whose call is
    fulfilled with [b] ends with the edited image "data:image/png;base64,"
    followed by [b], no error and the loading flag false, and the edited
    pane shows that image.  On the event loop: the submit leaves the error
    null, the edited image null and the loading flag set, with one more
    request in flight; and in every reachable state the fulfilled answer
    sets the edited image, clears the loading flag and shows the image,
    keeping the original image and the prompt, and leaves the error as it
    finds it: the error is null at the end unless another handler has
    written it while the request was pending. *)
Theorem handleSubmit_success :
  (forall (env : Env) (w : World) (img : ImageState) (b : string),
      prompt (ui w) <> "" ->
      originalImage (ui w) = Some img ->
      env _ (editImageWithGemini (data img) (mimeType img) (prompt (ui w)))
        = Fulfilled b ->
      let w' := fst (exec env (handleSubmit (ui w)) w) in
      ui w' = mkAppState (Some img) (Some ("data:image/png;base64," ++ b))
                         (prompt (ui w)) false None /\
      snd (exec env (handleSubmit (ui w)) w) = Returned tt /\
      editedPane (render (ui w'))
      = Some (Image ("data:image/png;base64," ++ b))) /\
  (forall (s : Sys) (img : ImageState),
      originalImage (ui (world s)) = Some img ->
      isLoading (ui (world s)) = false ->
      prompt (ui (world s)) <> "" ->
      exists s',
        step SubmitForm s = Some s' /\
        ui (world s') =
          mkAppState (Some img) None (prompt (ui (world s))) true None /\
        in_flight s' = in_flight s + 1) /\
  (forall (s : Sys) (i : nat) (b m p : string)
          (k : Settled string -> Task unit) (rest : list Pending)
          (env : Env) (r : string),
      reachable s ->
      take_nth i (pending s) = Some (Pend (editImageWithGemini b m p) k, rest) ->
      env _ (editImageWithGemini b m p) = Fulfilled r ->
      exists s',
        step (Settle i env) s = Some s' /\
        editedImage (ui (world s')) = Some ("data:image/png;base64," ++ r) /\
        isLoading (ui (world s')) = false /\
        error (ui (world s')) = error (ui (world s)) /\
        originalImage (ui (world s')) = originalImage (ui (world s)) /\
        prompt (ui (world s')) = prompt (ui (world s)) /\
        pending s' = rest /\
        editedPane (render (ui (world s')))
        = Some (Image ("data:image/png;base64," ++ r))).
Proof.
  split; [| split].
  - intros env w img b Hp Ho He.
    rewrite (handleSubmit_exec env w img Hp Ho), He. simpl.
    repeat split; reflexivity.
  - intros s img Ho Hl Hp.
    destruct (step_submit_sends s img Ho Hl Hp) as (s' & Hs & Hu & _ & Hn).
    exists s'. repeat split; assumption.
  - intros s i b m p k rest env r Hs Hq He.
    destruct (step_settle_edit s i b m p k rest env Hs Hq) as [Hsome Hstep].
    rewrite He in Hstep.
    eexists. split; [exact Hstep |].
    repeat split; try reflexivity.
    simpl. unfold render. simpl.
    destruct (originalImage (ui (world s))) as [img |];
      [reflexivity | exfalso; apply Hsome; reflexivity].
Qed.

Lemma handleSubmit_success_witness :
  ui (fst (exec env_ok (handleSubmit loaded) (sampleWorld loaded)))
  = mkAppState (Some (mkImageState "aGVsbG8=" "image/png"))
               (Some "data:image/png;base64,iVBORw0KGgo=")
               "add a hat" false None /\
  exists s',
    step (Settle 0 env_ok) busySys = Some s' /\
    editedImage (ui (world s')) = Some "data:image/png;base64,iVBORw0KGgo=" /\
    isLoading (ui (world s')) = false /\
    error (ui (world s')) = None.
Proof.
  destruct handleSubmit_success as (Hexec & _ & Hsettle).
  split.
  - destruct (Hexec env_ok (sampleWorld loaded)
                (mkImageState "aGVsbG8=" "image/png") "iVBORw0KGgo=")
      as [H _].
    + intros E; discriminate E.
    + reflexivity.
    + reflexivity.
    + exact H.
  - assert (Hq : exists k,
               take_nth 0 (pending busySys)
               = Some (Pend (editImageWithGemini "aGVsbG8=" "image/png"
                                                 "add a hat") k, [])).
    { eexists. vm_compute. reflexivity. }
    destruct Hq as [k Hq].
    destruct (Hsettle busySys 0 _ _ _ k [] env_ok "iVBORw0KGgo="
                busySys_reachable Hq eq_refl)
      as (s' & Hstep & He & Hl & Herr & _).
    exists s'. split; [exact Hstep |]. split; [exact He |].
    split; [exact Hl |]. rewrite Herr. vm_compute. reflexivity.
Defined.

(** C6, the claim as first stated, fails on the event loop: here a submit
    with a prompt and an image is sent with the error null, a read that
    was started earlier then fails, and the request is fulfilled; the
    edited image is set and the loading flag is false, but the error is
    "Failed to process image file.", not null. *)
Lemma handleSubmit_success_counterexample :
  reachable lateReadAnswered /\
  ui (world lateReadSubmitted)
  = mkAppState (Some (mkImageState "aGVsbG8=" "image/png")) None
               "add a hat" true None /\
  in_flight lateReadSubmitted = 1 /\
  ui (world lateReadAnswered)
  = mkAppState (Some (mkImageState "aGVsbG8=" "image/png"))
               (Some "data:image/png;base64,iVBORw0KGgo=")
               "add a hat" false (Some "Failed to process image file.") /\
  error (ui (world lateReadAnswered)) <> None /\
  pending lateReadAnswered = [].
Proof.
  split.
  { exists (lateReadEvents ++
            [Settle 0 (env_reject (JsError "unreadable")); Settle 0 env_ok])%list.
    vm_compute. reflexivity. }
  repeat split; try (vm_compute; reflexivity).
  vm_compute. intros E; discriminate E.
Qed.
